(** * Garments storefront: product data access, filtering and view models

    A shallow embedding of the product hook ([useProducts]), the product
    listing page ([ProductsPage]), the product detail page
    ([ProductDetailPage]) and the best-selling section ([BestSelling]),
    with the properties their specification states about them. *)

From Stdlib Require Import List String Ascii Bool Arith ZArith QArith Lia.
From Stdlib Require Import Sorting.Sorted Sorting.Permutation.
From Stdlib Require Import Numbers.DecimalString QArith.Qround.
Import ListNotations.

Local Close Scope Q_scope.
Local Open Scope string_scope.
Local Open Scope list_scope.

(* ===================================================================== *)
(** ** JavaScript primitives used by the components *)
(* ===================================================================== *)

Module Js.

(** Strings are sequences of code units; one [ascii] stands for one code
    unit below 256. *)

(** [s.includes(t)]: [t] occurs in [s] as a contiguous run of code units. *)
Fixpoint includes (s t : string) : bool :=
  if String.prefix t s then true
  else match s with
       | EmptyString => false
       | String _ s' => includes s' t
       end.

(** [toLowerCase] restricted to the ASCII letters; on strings of ASCII code
    units it is what [String.prototype.toLowerCase] computes. *)
Definition lower_ascii (c : ascii) : ascii :=
  let n := nat_of_ascii c in
  if (65 <=? n)%nat && (n <=? 90)%nat then ascii_of_nat (n + 32) else c.

Fixpoint ascii_toLowerCase (s : string) : string :=
  match s with
  | EmptyString => EmptyString
  | String c s' => String (lower_ascii c) (ascii_toLowerCase s')
  end.

(** The values that flow through [a || b] and [obj[key]] in the pages. *)
Inductive value : Type :=
| VUndefined
| VBool (b : bool)
| VStr (s : string)
| VBuiltin (name : string). (* a function or object of the standard library *)

Definition truthy (v : value) : bool :=
  match v with
  | VUndefined => false
  | VBool b => b
  | VStr s => negb (String.eqb s "")
  | VBuiltin _ => true
  end.

(** [a || b] *)
Definition or (a b : value) : value := if truthy a then a else b.

(** A string used as a condition: [s && ...], [filter(Boolean)]. *)
Definition truthy_str (s : option string) : bool :=
  match s with
  | None => false
  | Some s => negb (String.eqb s "")
  end.

(** [s || dflt] for a nullable string. *)
Definition or_str (s : option string) (dflt : string) : string :=
  match s with
  | Some s' => if String.eqb s' "" then dflt else s'
  | None => dflt
  end.

(** *** Objects used as dictionaries *)

(** The own properties of [Object.prototype]; every object literal
    inherits them, and [obj[key]] walks the prototype chain. *)
Definition Object_prototype : list (string * value) :=
  [ ("constructor", VBuiltin "Object");
    ("__defineGetter__", VBuiltin "__defineGetter__");
    ("__defineSetter__", VBuiltin "__defineSetter__");
    ("hasOwnProperty", VBuiltin "hasOwnProperty");
    ("__lookupGetter__", VBuiltin "__lookupGetter__");
    ("__lookupSetter__", VBuiltin "__lookupSetter__");
    ("isPrototypeOf", VBuiltin "isPrototypeOf");
    ("propertyIsEnumerable", VBuiltin "propertyIsEnumerable");
    ("toString", VBuiltin "toString");
    ("valueOf", VBuiltin "valueOf");
    ("__proto__", VBuiltin "Object.prototype");
    ("toLocaleString", VBuiltin "toLocaleString") ].

Fixpoint assoc {A : Type} (k : string) (l : list (string * A)) : option A :=
  match l with
  | [] => None
  | (k', v) :: l' => if String.eqb k k' then Some v else assoc k l'
  end.

(** [obj[key]] for an object literal whose own properties are [own]. *)
Definition get (own : list (string * value)) (key : string) : value :=
  match assoc key own with
  | Some v => v
  | None =>
      match assoc key Object_prototype with
      | Some v => v
      | None => VUndefined
      end
  end.

(** *** Numbers and [parseInt] *)

(** The numbers the components compute are [NaN] or integers that a
    double represents exactly. *)
Inductive number : Type :=
| NaN
| Num (z : Z).

(** The double nearest to the natural number [m], ties to even: [m] itself
    up to 53 bits, and the 53 leading bits rounded beyond (numbers past the
    range of doubles, of more than 308 digits, are not considered). *)
Definition to_double (m : Z) : Z :=
  let bits := (Z.log2 m + 1)%Z in
  if (bits <=? 53)%Z then m
  else
    let shift := (bits - 53)%Z in
    let q := Z.shiftr m shift in
    let rest := (m - Z.shiftl q shift)%Z in
    let half := Z.shiftl 1 (shift - 1) in
    let q' :=
      if (half <? rest)%Z || ((rest =? half)%Z && Z.odd q) then (q + 1)%Z
      else q in
    Z.shiftl q' shift.

(** [a === b] on numbers: [NaN] is equal to nothing, itself included. *)
Definition strict_eq (a b : number) : bool :=
  match a, b with
  | Num x, Num y => Z.eqb x y
  | _, _ => false
  end.

Definition is_white_space (c : ascii) : bool :=
  let n := nat_of_ascii c in
  ((9 <=? n)%nat && (n <=? 13)%nat) || (n =? 32)%nat || (n =? 160)%nat.

Fixpoint trim_start (s : string) : string :=
  match s with
  | EmptyString => EmptyString
  | String c s' => if is_white_space c then trim_start s' else s
  end.

Definition digit_value (radix : Z) (c : ascii) : option Z :=
  let n := Z.of_nat (nat_of_ascii c) in
  let v :=
    if (48 <=? n)%Z && (n <=? 57)%Z then Some (n - 48)%Z
    else if (97 <=? n)%Z && (n <=? 122)%Z then Some (n - 87)%Z
    else if (65 <=? n)%Z && (n <=? 90)%Z then Some (n - 55)%Z
    else None in
  match v with
  | Some d => if (d <? radix)%Z then Some d else None
  | None => None
  end.

(** The value of the longest prefix of digits, [None] when it is empty. *)
Fixpoint parse_digits (radix : Z) (s : string) (acc : Z) (seen : bool)
  : option Z :=
  match s with
  | EmptyString => if seen then Some acc else None
  | String c s' =>
      match digit_value radix c with
      | Some d => parse_digits radix s' (acc * radix + d)%Z true
      | None => if seen then Some acc else None
      end
  end.

(** [parseInt(s)] with no radix argument: leading white space, an optional
    sign, an optional [0x] prefix, then the longest run of digits. *)
Definition parseInt (s : string) : number :=
  let s0 := trim_start s in
  let '(sign, s1) :=
    match s0 with
    | String "-" r => ((-1)%Z, r)
    | String "+" r => (1%Z, r)
    | _ => (1%Z, s0)
    end in
  let '(radix, s2) :=
    match s1 with
    | String "0" (String "x" r) => (16%Z, r)
    | String "0" (String "X" r) => (16%Z, r)
    | _ => (10%Z, s1)
    end in
  match parse_digits radix s2 0%Z false with
  | Some m => Num (sign * to_double m)
  | None => NaN
  end.

(** *** [Set] *)

(** [set.add(x)]: [x] is appended unless a member is the same value. *)
Definition set_add {A : Type} (same : A -> A -> bool) (s : list A) (x : A)
  : list A :=
  if existsb (same x) s then s else s ++ [x].

(** [[...new Set(l)]]: the members in insertion order. Two values are the
    same when [same] says so: equal contents for strings, the same address
    for objects. *)
Definition new_Set {A : Type} (same : A -> A -> bool) (l : list A) : list A :=
  fold_left (set_add same) l [].

(** An object is known by its address. *)
Record object (F : Type) : Type := mkObject {
  address : nat;
  fields : F
}.
Arguments mkObject {F} address fields.
Arguments address {F} o.
Arguments fields {F} o.

Definition same_object {F} (a b : object F) : bool :=
  Nat.eqb (address a) (address b).

(** [l.map(x => ({ ... }))]: every evaluation of the object literal
    allocates a new object, at the next free address. *)
Fixpoint map_fresh {A F} (f : A -> F) (next : nat) (l : list A)
  : list (object F) :=
  match l with
  | [] => []
  | x :: l' => mkObject next (f x) :: map_fresh f (S next) l'
  end.

(** *** Exceptions *)

(** What a [throw] carries: an [Error] instance with its message, or any
    other value (the backend client reports plain objects). *)
Inductive thrown : Type :=
| ErrorObj (message : string)
| NonError (repr : string).

End Js.

(* ===================================================================== *)
(** ** Computations with state and exceptions *)
(* ===================================================================== *)

Module Eff.

Inductive result (A : Type) : Type :=
| Ok (a : A)
| Raise (e : Js.thrown).
Arguments Ok {A} a.
Arguments Raise {A} e.

(** A computation over a world [W]: it returns or throws, and leaves a
    world behind in both cases. *)
Definition M (W A : Type) : Type := W -> result A * W.

Definition ret {W A} (a : A) : M W A := fun w => (Ok a, w).

Definition bind {W A B} (c : M W A) (k : A -> M W B) : M W B :=
  fun w =>
    match c w with
    | (Ok a, w') => k a w'
    | (Raise e, w') => (Raise e, w')
    end.

Definition throw {W A} (e : Js.thrown) : M W A := fun w => (Raise e, w).

Definition modify {W} (f : W -> W) : M W unit := fun w => (Ok tt, f w).

(** [try { body } catch (err) { handler }] *)
Definition try_catch {W A} (body : M W A) (handler : Js.thrown -> M W A)
  : M W A :=
  fun w =>
    match body w with
    | (Ok a, w') => (Ok a, w')
    | (Raise e, w') => handler e w'
    end.

(** [try { body } finally { fin }] *)
Definition try_finally {W A} (body : M W A) (fin : M W unit) : M W A :=
  fun w =>
    match body w with
    | (r, w') =>
        match fin w' with
        | (Ok _, w'') => (r, w'')
        | (Raise e, w'') => (Raise e, w'')
        end
    end.

(** [arr.filter(cb)] where the callback may throw: the first exception
    aborts the traversal. *)
Fixpoint filterM {A} (cb : A -> result bool) (l : list A) : result (list A) :=
  match l with
  | [] => Ok []
  | x :: l' =>
      match cb x with
      | Raise e => Raise e
      | Ok b =>
          match filterM cb l' with
          | Raise e => Raise e
          | Ok r => Ok (if b then x :: r else r)
          end
      end
  end.

End Eff.

Declare Scope eff_scope.
Delimit Scope eff_scope with eff.
Notation "x <- c1 ;; c2" := (Eff.bind c1 (fun x => c2))
  (at level 100, c1 at next level, right associativity) : eff_scope.
Notation "c1 ;; c2" := (Eff.bind c1 (fun _ => c2))
  (at level 100, right associativity) : eff_scope.
Notation "' pat <- c1 ;; c2" := (Eff.bind c1 (fun x => match x with pat => c2 end))
  (at level 100, pat pattern, c1 at next level, right associativity)
  : eff_scope.

(* ===================================================================== *)
(** ** Data model ([interface Product]) *)
(* ===================================================================== *)

Module Image.
Record t : Type := mk {
  id : string;
  image_url : string;
  alt_text : option string;
  is_primary : bool;
  sort_order : Z
}.
End Image.

Module Variant.
Record t : Type := mk {
  id : string;
  size : option string;
  color_name : option string;
  color_code : option string;
  stock_quantity : Z;
  price_adjustment : Q;
  is_active : bool
}.
End Variant.

Module Category.
Record t : Type := mk {
  name : string;
  slug : string
}.
End Category.

Module Product.
Record t : Type := mk {
  id : string;
  name : string;
  description : option string;
  category_id : option string;
  subcategory : option string;
  price : Q;
  original_price : option Q;
  sku : option string;
  slug : string;
  is_active : bool;
  is_hot_sale : bool;
  rating : Q;
  review_count : Z;
  created_at : string;
  updated_at : string;
  category : option Category.t;
  images : list Image.t;
  variants : list Variant.t
}.
End Product.

(* ===================================================================== *)
(** ** The product store behind the query client *)
(* ===================================================================== *)

Module Store.

Inductive column : Type :=
| col_id | col_slug | col_category_id | col_category_slug
| col_is_active | col_is_hot_sale | col_rating | col_created_at.

Inductive cell : Type :=
| CStr (s : string)
| CBool (b : bool)
| CNum (q : Q).

(** The value of a column in a row; [None] is SQL [NULL] (or, for the
    joined category, no joined row). *)
Definition cell_of (c : column) (p : Product.t) : option cell :=
  match c with
  | col_id => Some (CStr (Product.id p))
  | col_slug => Some (CStr (Product.slug p))
  | col_category_id => option_map CStr (Product.category_id p)
  | col_category_slug =>
      option_map (fun k => CStr (Category.slug k)) (Product.category p)
  | col_is_active => Some (CBool (Product.is_active p))
  | col_is_hot_sale => Some (CBool (Product.is_hot_sale p))
  | col_rating => Some (CNum (Product.rating p))
  | col_created_at => Some (CStr (Product.created_at p))
  end.

Definition cell_eqb (a b : cell) : bool :=
  match a, b with
  | CStr x, CStr y => String.eqb x y
  | CBool x, CBool y => Bool.eqb x y
  | CNum x, CNum y => Qeq_bool x y
  | _, _ => false
  end.

(** [a <= b] within a column. *)
Definition cell_leb (a b : cell) : bool :=
  match a, b with
  | CStr x, CStr y => String.leb x y
  | CBool x, CBool y => implb x y
  | CNum x, CNum y => Qle_bool x y
  | _, _ => false
  end.

(** The filters the hook uses: [.eq], [.neq] and [.or] over [eq]/[gte]. *)
Inductive cond : Type :=
| Eq (c : column) (v : cell)
| Neq (c : column) (v : cell)
| Gte (c : column) (v : cell)
| Or (a b : cond).

(** A comparison with [NULL] is not true, so the row is dropped. *)
Fixpoint holds (k : cond) (p : Product.t) : bool :=
  match k with
  | Eq c v => match cell_of c p with Some x => cell_eqb x v | None => false end
  | Neq c v =>
      match cell_of c p with Some x => negb (cell_eqb x v) | None => false end
  | Gte c v => match cell_of c p with Some x => cell_leb v x | None => false end
  | Or a b => holds a p || holds b p
  end.

Record query : Type := mkQuery {
  conds : list cond;
  row_limit : option nat;
  ordering : option (column * bool) (* column, ascending *)
}.

(** The builder calls of the hook. *)
Definition from_products_select : query := mkQuery [] None None.
Definition eq (c : column) (v : cell) (q : query) : query :=
  mkQuery (conds q ++ [Eq c v]) (row_limit q) (ordering q).
Definition neq (c : column) (v : cell) (q : query) : query :=
  mkQuery (conds q ++ [Neq c v]) (row_limit q) (ordering q).
Definition or (k : cond) (q : query) : query :=
  mkQuery (conds q ++ [k]) (row_limit q) (ordering q).
Definition limit (n : nat) (q : query) : query :=
  mkQuery (conds q) (Some n) (ordering q).
Definition order (c : column) (ascending : bool) (q : query) : query :=
  mkQuery (conds q) (row_limit q) (Some (c, ascending)).

(** [p] may come before [r] under the ordering. *)
Definition before (c : column) (ascending : bool) (p r : Product.t) : bool :=
  match cell_of c p, cell_of c r with
  | Some x, Some y => if ascending then cell_leb x y else cell_leb y x
  | _, _ => true
  end.

(** Stable insertion: rows with equal keys keep the order of the table. *)
Fixpoint insert (le : Product.t -> Product.t -> bool) (x : Product.t)
  (l : list Product.t) : list Product.t :=
  match l with
  | [] => [x]
  | y :: l' => if le x y then x :: l else y :: insert le x l'
  end.

Fixpoint sort (le : Product.t -> Product.t -> bool) (l : list Product.t)
  : list Product.t :=
  match l with
  | [] => []
  | x :: l' => insert le x (sort le l')
  end.

(** Rows of a query: all conditions hold, then the ordering, then the row
    limit, whatever the order of the builder calls. *)
Definition rows (table : list Product.t) (q : query) : list Product.t :=
  let selected :=
    List.filter (fun p => forallb (fun k => holds k p) (conds q)) table in
  let sorted :=
    match ordering q with
    | Some (c, asc) => sort (before c asc) selected
    | None => selected
    end in
  match row_limit q with
  | Some n => firstn n sorted
  | None => sorted
  end.

(** The state of the backend when a request reaches it. *)
Inductive backend : Type :=
| Serving (table : list Product.t)
| Failing (error : Js.thrown)       (* the response carries an error *)
| Unreachable (reason : Js.thrown). (* the request itself rejects *)

(** The [{ data, error }] pair a request resolves to. *)
Record response (A : Type) : Type := mkResponse {
  data : option A;
  error : option Js.thrown
}.
Arguments mkResponse {A} data error.
Arguments data {A} r.
Arguments error {A} r.

(** [await query] *)
Definition await {W} (b : backend) (q : query)
  : Eff.M W (response (list Product.t)) :=
  match b with
  | Serving table => Eff.ret (mkResponse (Some (rows table q)) None)
  | Failing e => Eff.ret (mkResponse None (Some e))
  | Unreachable e => Eff.throw e
  end.

(** [await query.single()]: exactly one row, or an error. *)
Definition await_single {W} (b : backend) (q : query)
  : Eff.M W (response Product.t) :=
  match b with
  | Serving table =>
      match rows table q with
      | [p] => Eff.ret (mkResponse (Some p) None)
      | _ =>
          Eff.ret (mkResponse None
            (Some (Js.NonError "PGRST116: JSON object requested, multiple (or no) rows returned")))
      end
  | Failing e => Eff.ret (mkResponse None (Some e))
  | Unreachable e => Eff.throw e
  end.

(** The backend answers with an error, or not at all. *)
Definition failed (b : backend) : bool :=
  match b with
  | Serving _ => false
  | Failing _ | Unreachable _ => true
  end.

End Store.

Notation "q |> f" := (f q) (at level 45, left associativity, only parsing).

(* ===================================================================== *)
(** ** The product hook ([useProducts]) *)
(* ===================================================================== *)

Module UseProducts.
Import Store.
Local Open Scope eff_scope.

(** The state cells of the hook and the console it logs to. *)
Record hook : Type := mkHook {
  products : list Product.t;
  loading : bool;
  error : option string;
  console : list (string * string)
}.

Definition initial : hook := mkHook [] true None [].

Definition setProducts (ps : list Product.t) : Eff.M hook unit :=
  Eff.modify (fun h => mkHook ps (loading h) (error h) (console h)).
Definition setLoading (b : bool) : Eff.M hook unit :=
  Eff.modify (fun h => mkHook (products h) b (error h) (console h)).
Definition setError (e : option string) : Eff.M hook unit :=
  Eff.modify (fun h => mkHook (products h) (loading h) e (console h)).
Definition console_error (label what : string) : Eff.M hook unit :=
  Eff.modify (fun h =>
    mkHook (products h) (loading h) (error h) (console h ++ [(label, what)])).

(** How the console shows a caught value. *)
Definition show (e : Js.thrown) : string :=
  match e with
  | Js.ErrorObj m => m
  | Js.NonError r => r
  end.

(** [if (error) throw error] *)
Definition throw_if_error {A} (r : response A) : Eff.M hook unit :=
  match Store.error r with
  | Some e => Eff.throw e
  | None => Eff.ret tt
  end.

(** [data || []] *)
Definition data_or_empty (r : response (list Product.t)) : list Product.t :=
  match data r with
  | Some rows => rows
  | None => []
  end.

(** The sample products of the fallback. [now k] is the reading of the
    k-th [new Date().toISOString()] of the array literal. *)
Definition mockProducts (now : nat -> string) : list Product.t :=
  [ Product.mk "1" "Men's Round Neck T-Shirt - Premium Cotton"
      (Some "Premium quality round neck t-shirt made from 100% cotton")
      (Some "1") (Some "Round Neck T-Shirts") 399 (Some 499%Q)
      (Some "MEN-RN-TSH-001") "mens-round-neck-tshirt-premium"
      true true 5 45 (now 0%nat) (now 1%nat)
      (Some (Category.mk "Men" "men"))
      [Image.mk "1" "/placeholder.svg" (Some "Round Neck T-Shirt") true 1]
      [Variant.mk "1" (Some "M") (Some "Black") (Some "#000000") 50 0 true];
    Product.mk "2" "Women's 3/4 Leggings - Comfort Fit"
      (Some "Comfortable 3/4 length leggings perfect for workouts and casual wear")
      (Some "2") (Some "3/4 Leggings") 449 (Some 549%Q)
      (Some "WOM-34-LEG-001") "womens-3-4-leggings-comfort"
      true true 4 28 (now 2%nat) (now 3%nat)
      (Some (Category.mk "Women" "women"))
      [Image.mk "2" "/placeholder.svg" (Some "3/4 Leggings") true 1]
      [Variant.mk "2" (Some "M") (Some "Navy") (Some "#000080") 30 0 true];
    Product.mk "3" "Men's V-Neck T-Shirt - Classic Style"
      (Some "Stylish V-neck t-shirt crafted from premium cotton blend")
      (Some "1") (Some "V-Neck T-Shirts") 449 (Some 549%Q)
      (Some "MEN-VN-TSH-002") "mens-v-neck-tshirt-classic"
      true false 4 32 (now 4%nat) (now 5%nat)
      (Some (Category.mk "Men" "men"))
      [Image.mk "3" "/placeholder.svg" (Some "V-Neck T-Shirt") true 1]
      [Variant.mk "3" (Some "L") (Some "Purple") (Some "#7C3AED") 25 0 true] ].

Definition all_active : query :=
  from_products_select
  |> eq col_is_active (CBool true)
  |> order col_created_at false.

(** [fetchProducts], the copy with the sample-data fallback. *)
Definition fetchProducts (b : backend) (now : nat -> string)
  : Eff.M hook unit :=
  Eff.try_finally
    (Eff.try_catch
       (setLoading true ;;
        r <- await b all_active ;;
        throw_if_error r ;;
        setProducts (data_or_empty r) ;;
        setError None)
       (fun err =>
          let errorMessage :=
            match err with
            | Js.ErrorObj m => m
            | Js.NonError _ => "An error occurred"
            end in
          console_error "Database fetch failed, using mock data:" errorMessage ;;
          setError (Some errorMessage) ;;
          setProducts (mockProducts now)))
    (setLoading false).

Definition getProductBySlug (b : backend) (slug : string)
  : Eff.M hook (option Product.t) :=
  Eff.try_catch
    (r <- await_single b
            (from_products_select
             |> eq col_slug (CStr slug)
             |> eq col_is_active (CBool true)) ;;
     throw_if_error r ;;
     Eff.ret (data r))
    (fun err =>
       console_error "Error fetching product:" (show err) ;;
       Eff.ret None).

Definition getProductsByCategory (b : backend) (categorySlug : string)
  : Eff.M hook (list Product.t) :=
  Eff.try_catch
    (r <- await b
            (from_products_select
             |> eq col_category_slug (CStr categorySlug)
             |> eq col_is_active (CBool true)
             |> order col_created_at false) ;;
     throw_if_error r ;;
     Eff.ret (data_or_empty r))
    (fun err =>
       console_error "Error fetching products by category:" (show err) ;;
       Eff.ret []).

Definition getHotSaleProducts (b : backend) : Eff.M hook (list Product.t) :=
  Eff.try_catch
    (r <- await b
            (from_products_select
             |> eq col_is_hot_sale (CBool true)
             |> eq col_is_active (CBool true)
             |> order col_created_at false) ;;
     throw_if_error r ;;
     Eff.ret (data_or_empty r))
    (fun err =>
       console_error "Error fetching hot sale products:" (show err) ;;
       Eff.ret []).

Definition getAllProducts (b : backend) : Eff.M hook (list Product.t) :=
  Eff.try_catch
    (r <- await b all_active ;;
     throw_if_error r ;;
     Eff.ret (data_or_empty r))
    (fun err =>
       console_error "Error fetching all products:" (show err) ;;
       Eff.ret []).

Definition getRelatedProducts (b : backend)
  (categoryId excludeProductId : string) (limit : nat)
  : Eff.M hook (list Product.t) :=
  Eff.try_catch
    (r <- await b
            (from_products_select
             |> eq col_category_id (CStr categoryId)
             |> neq col_id (CStr excludeProductId)
             |> eq col_is_active (CBool true)
             |> Store.limit limit
             |> order col_created_at false) ;;
     throw_if_error r ;;
     Eff.ret (data_or_empty r))
    (fun err =>
       console_error "Error fetching related products:" (show err) ;;
       Eff.ret []).

Definition recommended (limit : nat) : query :=
  from_products_select
  |> eq col_is_active (CBool true)
  |> or (Or (Eq col_is_hot_sale (CBool true)) (Gte col_rating (CNum 4)))
  |> Store.limit limit
  |> order col_rating false.

Definition getRecommendedProducts (b : backend) (limit : nat)
  : Eff.M hook (list Product.t) :=
  Eff.try_catch
    (r <- await b (recommended limit) ;;
     throw_if_error r ;;
     Eff.ret (data_or_empty r))
    (fun err =>
       console_error "Error fetching recommended products:" (show err) ;;
       Eff.ret []).

Definition getProductById (b : backend) (id : string)
  : Eff.M hook (option Product.t) :=
  Eff.try_catch
    (r <- await_single b
            (from_products_select
             |> eq col_id (CStr id)
             |> eq col_is_active (CBool true)) ;;
     throw_if_error r ;;
     Eff.ret (data r))
    (fun err =>
       console_error "Error fetching product by id:" (show err) ;;
       Eff.ret None).

End UseProducts.

(** The second copy of the hook (the one kept next to [client/main.tsx]).
    Its accessors are those of [UseProducts]; its [fetchProducts] has no
    fallback. *)
Module UseProductsClient.
Import Store UseProducts.
Local Open Scope eff_scope.

Definition fetchProducts (b : backend) : Eff.M hook unit :=
  Eff.try_finally
    (Eff.try_catch
       (setLoading true ;;
        r <- await b all_active ;;
        throw_if_error r ;;
        setProducts (data_or_empty r))
       (fun err =>
          setError (Some (match err with
                          | Js.ErrorObj m => m
                          | Js.NonError _ => "An error occurred"
                          end))))
    (setLoading false).

End UseProductsClient.

(* ===================================================================== *)
(** ** The product listing page ([ProductsPage]) *)
(* ===================================================================== *)

Module ProductsPage.
Local Open Scope eff_scope.

(** Arrays live in a store and the state cells hold references to them,
    so that passing an array along and building a new one differ. *)
Definition ref : Type := nat.

Record page : Type := mkPage {
  arrays : list (list Product.t);
  products : ref;
  filteredProducts : ref;
  selectedFilter : string
}.

Definition deref (w : page) (r : ref) : list Product.t := nth r (arrays w) [].

(** A new array, as [filter] returns one. *)
Definition alloc (a : list Product.t) : Eff.M page ref :=
  fun w =>
    (Eff.Ok (List.length (arrays w)),
     mkPage (arrays w ++ [a]) (products w) (filteredProducts w)
       (selectedFilter w)).

Definition setFilteredProducts (r : ref) : Eff.M page unit :=
  Eff.modify (fun w => mkPage (arrays w) (products w) r (selectedFilter w)).
Definition setSelectedFilter (f : string) : Eff.M page unit :=
  Eff.modify (fun w => mkPage (arrays w) (products w) (filteredProducts w) f).
Definition read_products : Eff.M page (ref * list Product.t) :=
  fun w => (Eff.Ok (products w, deref w (products w)), w).

(** Evaluation of a callback that may throw, inside a handler. *)
Definition lift {A} (r : Eff.result A) : Eff.M page A := fun w => (r, w).

Definition categoryMap : list (string * Js.value) :=
  [ ("men", Js.VStr "mens-t-shirts");
    ("men-tshirts", Js.VStr "mens-t-shirts");
    ("men-bottomwear", Js.VStr "mens-bottomwear");
    ("women", Js.VStr "womens-leggings");
    ("women-leggings", Js.VStr "womens-leggings");
    ("shapewear", Js.VStr "saree-shapewear");
    ("nightwear", Js.VStr "night-wear") ].

(** [categoryMap[category] || category] *)
Definition getCategorySlug (category : string) : Js.value :=
  Js.or (Js.get categoryMap category) (Js.VStr category).

(** The image a listing card shows: [images?.[0]?.image_url || placeholder]. *)
Definition cardImage (product : Product.t) : string :=
  match Product.images product with
  | img :: _ => Js.or_str (Some (Image.image_url img)) "/placeholder.svg"
  | [] => "/placeholder.svg"
  end.

Section Filtering.

(** [String.prototype.toLowerCase]; the development holds for any such
    function. *)
Variable toLowerCase : string -> string.

(** The callback of the subcategory effect:
    [name.toLowerCase().includes(t) || description?.toLowerCase().includes(t)] *)
Definition effectCallback (subcategory : string) (product : Product.t)
  : Js.value :=
  Js.or
    (Js.VBool (Js.includes (toLowerCase (Product.name product))
                 (toLowerCase subcategory)))
    (match Product.description product with
     | None => Js.VUndefined
     | Some d =>
         Js.VBool (Js.includes (toLowerCase d) (toLowerCase subcategory))
     end).

(** [filter] keeps a product when the callback's value is truthy. *)
Definition effectTest (subcategory : string) (product : Product.t) : bool :=
  Js.truthy (effectCallback subcategory product).

(** The effect that runs when [subcategory] or [products] change. *)
Definition subcategoryEffect (subcategory : option string)
  : Eff.M page unit :=
  match subcategory with
  | Some s =>
      if Js.truthy_str (Some s) && negb (String.eqb s "all") then
        '(_, ps) <- read_products ;;
        r <- alloc (List.filter (effectTest s) ps) ;;
        setFilteredProducts r ;;
        setSelectedFilter s
      else
        '(r, _) <- read_products ;;
        setFilteredProducts r ;;
        setSelectedFilter "all"
  | None =>
      '(r, _) <- read_products ;;
      setFilteredProducts r ;;
      setSelectedFilter "all"
  end.

(** The callback of [handleFilterClick]:
    [name.toLowerCase().includes(t) || description.toLowerCase().includes(t)];
    the right operand is evaluated only when the left one is false, and
    reading [toLowerCase] off [null] throws. *)
Definition clickCallback (filter : string) (product : Product.t)
  : Eff.result bool :=
  if Js.includes (toLowerCase (Product.name product)) (toLowerCase filter)
  then Eff.Ok true
  else
    match Product.description product with
    | None =>
        Eff.Raise
          (Js.ErrorObj "Cannot read properties of null (reading 'toLowerCase')")
    | Some d => Eff.Ok (Js.includes (toLowerCase d) (toLowerCase filter))
    end.

Definition handleFilterClick (filter : string) : Eff.M page unit :=
  setSelectedFilter filter ;;
  if String.eqb filter "All" || String.eqb filter "all" then
    '(r, _) <- read_products ;;
    setFilteredProducts r
  else
    '(_, ps) <- read_products ;;
    filtered <- lift (Eff.filterM (clickCallback filter) ps) ;;
    r <- alloc filtered ;;
    setFilteredProducts r.

(** A page whose fetched products are [ps], before any filtering. *)
Definition loaded (ps : list Product.t) : page := mkPage [ps] 0 0 "all".

(** The products shown after the effect ran over the fetched list [ps]. *)
Definition shown (subcategory : option string) (ps : list Product.t)
  : list Product.t :=
  let w := snd (subcategoryEffect subcategory (loaded ps)) in
  deref w (filteredProducts w).

End Filtering.

End ProductsPage.

(* ===================================================================== *)
(** ** The product detail page ([ProductDetailPage]) *)
(* ===================================================================== *)

Module ProductDetailPage.

(** [productImages.find(img => img.is_primary) || productImages[0]] *)
Definition primaryImage (productImages : list Image.t) : option Image.t :=
  match List.find Image.is_primary productImages with
  | Some img => Some img
  | None => hd_error productImages
  end.

(** [primaryImage?.image_url || '/placeholder.svg'], the [src] of the main
    picture. *)
Definition primaryImageSrc (product : Product.t) : string :=
  Js.or_str (option_map Image.image_url (primaryImage (Product.images product)))
    "/placeholder.svg".

(** [[...new Set(variants.map(v => v.size).filter(Boolean))]]: sizes are
    strings, the same when their contents are equal. *)
Definition sizeOptions (product : Product.t) : list string :=
  Js.new_Set String.eqb
    (flat_map (fun s => match s with
                        | Some x => if String.eqb x "" then [] else [x]
                        | None => []
                        end)
       (map Variant.size (Product.variants product))).

(** The object literal [{ name: v.color_name, code: v.color_code }]. *)
Record color : Type := mkColor {
  name : option string;
  code : option string
}.

(** [[...new Set(variants.map(v => ({ name, code })).filter(c => c.name))]]:
    the members are the objects that [map] has just created, the same only
    when they are one object. [next] is the next free address. *)
Definition colorOptions (next : nat) (product : Product.t) : list color :=
  map Js.fields
    (Js.new_Set Js.same_object
       (List.filter (fun c => Js.truthy_str (name (Js.fields c)))
          (Js.map_fresh
             (fun v => mkColor (Variant.color_name v) (Variant.color_code v))
             next (Product.variants product)))).

End ProductDetailPage.

(* ===================================================================== *)
(** ** The best-selling section ([BestSelling]) *)
(* ===================================================================== *)

Module BestSelling.
Local Open Scope eff_scope.

(** The view model handed to [ProductRow] (the formatted price left out). *)
Record card : Type := mkCard {
  id : Js.number;
  name : string;
  image : string;
  rating : Q;
  colors : list (string * string);
  sizes : list string;
  category : string
}.

Definition toCard (product : Product.t) : card :=
  mkCard
    (Js.parseInt (Product.id product))
    (Product.name product)
    (ProductsPage.cardImage product)
    (if Qeq_bool (Product.rating product) 0 then 4%Q else Product.rating product)
    (map (fun v => (Js.or_str (Variant.color_name v) "Color",
                    Js.or_str (Variant.color_code v) "#000000"))
       (List.filter (fun v => Js.truthy_str (Variant.color_code v))
          (Product.variants product)))
    (List.filter (fun s => negb (String.eqb s ""))
       (flat_map (fun v => match Variant.size v with
                           | Some s => [s]
                           | None => []
                           end)
          (List.filter (fun v => Js.truthy_str (Variant.size v))
             (Product.variants product))))
    (match Product.category product with
     | Some c => Js.or_str (Some (Category.name c)) "General"
     | None => "General"
     end).

(** [products], the cards of the section. *)
Definition products (bestSellingProducts : list Product.t) : list card :=
  map toCard bestSellingProducts.

(** What a handler does to the outside. *)
Inductive action : Type :=
| OnQuickView (productId : string)
| Navigate (url : string)
| OnAddToCart (id name : string) (price : Q) (size image : string)
| Toast (title description : string) (destructive : bool)
| AddToDbCart (productId : string) (variantId : option string) (quantity : nat)
| ConsoleError (label : string).

Record env : Type := mkEnv {
  bestSellingProducts : list Product.t;
  onQuickView : bool;          (* the parent passed the prop *)
  onAddToCart : bool;          (* the parent passed the prop *)
  user : bool;                 (* someone is logged in *)
  cartFailure : option Js.thrown (* [addToCart] rejects with it *)
}.

Definition act (a : action) : Eff.M (list action) unit :=
  Eff.modify (fun done => done ++ [a]).

(** [bestSellingProducts.find(p => parseInt(p.id) === productId)] *)
Definition lookup (ps : list Product.t) (productId : Js.number)
  : option Product.t :=
  List.find (fun p => Js.strict_eq (Js.parseInt (Product.id p)) productId) ps.

Definition handleQuickView (e : env) (productId : Js.number)
  : Eff.M (list action) unit :=
  match lookup (bestSellingProducts e) productId with
  | Some product =>
      if onQuickView e then act (OnQuickView (Product.id product))
      else act (Navigate ("/all-products?product=" ++ Product.id product)%string)
  | None => Eff.ret tt
  end.

Definition firstVariant (product : Product.t) : option Variant.t :=
  List.find (fun v => Variant.is_active v && (0 <? Variant.stock_quantity v)%Z)
    (Product.variants product).

Definition handleAddToCart (e : env) (productId : Js.number)
  : Eff.M (list action) unit :=
  match lookup (bestSellingProducts e) productId with
  | None => Eff.ret tt
  | Some product =>
      if onAddToCart e then
        act (OnAddToCart (Product.id product) (Product.name product)
               (Product.price product)
               (Js.or_str
                  (match Product.variants product with
                   | v :: _ => Variant.size v
                   | [] => None
                   end) "M")
               (ProductDetailPage.primaryImageSrc product))
      else if negb (user e) then
        act (Toast "Login Required" "Please login to add items to cart" true)
      else
        Eff.try_catch
          (let variant := firstVariant product in
           act (AddToDbCart (Product.id product)
                  (match variant with
                   | Some v =>
                       if String.eqb (Variant.id v) "" then None
                       else Some (Variant.id v)
                   | None => None
                   end) 1) ;;
           match cartFailure e with
           | Some err => Eff.throw err
           | None => Eff.ret tt
           end ;;
           let variantInfo :=
             match variant with
             | Some v =>
                 (" (" ++ Js.or_str (Variant.size v) "Standard" ++ " - "
                  ++ Js.or_str (Variant.color_name v) "Default" ++ ")")%string
             | None => ""
             end in
           act (Toast "Added to Cart!"
                  (Product.name product ++ variantInfo ++ " added to cart")
                  false))
          (fun _ =>
             act (ConsoleError "Error adding to cart:") ;;
             act (Toast "Error" "Error adding to cart. Please try again." true))
  end.

End BestSelling.

(* ===================================================================== *)
(** ** The listing page: loading, titles, filter labels, cart *)
(* ===================================================================== *)

Module ProductsPageView.
Import ProductsPage.
Local Open Scope eff_scope.

(** [String(v)], as a template literal and the query builder's
    [eq.${value}] render a value. *)
Definition String_of (v : Js.value) : string :=
  match v with
  | Js.VUndefined => "undefined"
  | Js.VBool true => "true"
  | Js.VBool false => "false"
  | Js.VStr s => s
  | Js.VBuiltin "Object.prototype" => "[object Object]"
  | Js.VBuiltin name => "function " ++ name ++ "() { [native code] }"
  end.

(** The page together with its [loading] cell and the hook it calls. *)
Record session : Type := mkSession {
  page_of : page;
  loading : bool;
  hook_of : UseProducts.hook
}.

Definition setLoading (b : bool) : Eff.M session unit :=
  Eff.modify (fun s => mkSession (page_of s) b (hook_of s)).

(** A call of an accessor of the hook. *)
Definition call {A} (c : Eff.M UseProducts.hook A) : Eff.M session A :=
  fun s =>
    match c (hook_of s) with
    | (r, h') => (r, mkSession (page_of s) (loading s) h')
    end.

(** [setProducts(productData); setFilteredProducts(productData)], where
    [productData] is the array the accessor has just returned. *)
Definition store_fetched (productData : list Product.t) : Eff.M session unit :=
  fun s =>
    let w := page_of s in
    let r := List.length (arrays w) in
    (Eff.Ok tt,
     mkSession (mkPage (arrays w ++ [productData]) r r (selectedFilter w))
       (loading s) (hook_of s)).

(** The effect that runs when [category] changes. The catch block only
    logs; the log of the page is not kept. *)
Definition fetchProducts (b : Store.backend) (category : option string)
  : Eff.M session unit :=
  setLoading true ;;
  Eff.try_finally
    (Eff.try_catch
       (productData <-
          (match category with
           | Some c =>
               if Js.truthy_str (Some c) && negb (String.eqb c "all") then
                 call (UseProducts.getProductsByCategory b
                         (String_of (getCategorySlug c)))
               else call (UseProducts.getAllProducts b)
           | None => call (UseProducts.getAllProducts b)
           end) ;;
        store_fetched productData)
       (fun _ => Eff.ret tt))
    (setLoading false).



Definition filterMap : list (string * list string) :=
  [ ("men", ["All"; "T-Shirts"; "Round Neck"; "V-Neck"; "Polo"; "Track Pants";
             "Shorts"]);
    ("men-tshirts", ["All"; "Round Neck"; "V-Neck"; "Polo"; "Long Sleeve";
                     "Sleeveless"]);
    ("men-bottomwear", ["All"; "Track Pants"; "Shorts"]);
    ("women", ["All"; "Leggings"; "Shapewear"; "Night Wear"; "3/4 Leggings"]);
    ("women-leggings", ["All"; "Flat Ankle"; "Full Length"; "Churidhar";
                        "Shimmer"; "3/4 Length"]);
    ("shapewear", ["All"; "Lycra Cotton"; "Polyester"; "Shimmer"]);
    ("nightwear", ["All"; "Night T-Shirts"; "Shorts"]) ].

(** What the lookup in [filterMap] can give: a list of labels, or a value
    inherited from [Object.prototype]. *)
Inductive filters : Type :=
| Labels (l : list string)
| Inherited (v : Js.value).

(** [filterMap[category || 'all'] || ['All']]: arrays and inherited values
    are truthy, so the default applies to missing properties only. *)
Definition getSubcategoryFilters (category : string) : filters :=
  let key := Js.or_str (Some category) "all" in
  match Js.assoc key filterMap with
  | Some l => Labels l
  | None =>
      match Js.assoc key Js.Object_prototype with
      | Some v => Inherited v
      | None => Labels ["All"]
      end
  end.

(** Whether the tab [filter] is drawn as selected. *)
Definition tabSelected (toLowerCase : string -> string)
  (selectedFilter filter : string) : bool :=
  String.eqb (toLowerCase selectedFilter) (toLowerCase filter)
  || (String.eqb selectedFilter "all" && String.eqb filter "All").

(** What [handleAddToCart] needs besides the page. *)
Record env : Type := mkEnv {
  user : bool;                    (* someone is logged in *)
  cartFailure : option Js.thrown  (* [addToCart] rejects with it *)
}.

(** [handleAddToCart(productId)] over the fetched list [products]. *)
Definition handleAddToCart (e : env) (products : list Product.t)
  (productId : string) : Eff.M (list BestSelling.action) unit :=
  if negb (user e) then
    BestSelling.act
      (BestSelling.Toast "Login Required" "Please login to add items to cart"
         true)
  else
    Eff.try_catch
      (match List.find (fun p => String.eqb (Product.id p) productId) products
       with
       | None =>
           BestSelling.act (BestSelling.Toast "Error" "Product not found" true)
       | Some product =>
           let variant := BestSelling.firstVariant product in
           BestSelling.act
             (BestSelling.AddToDbCart productId
                (match variant with
                 | Some v =>
                     if String.eqb (Variant.id v) "" then None
                     else Some (Variant.id v)
                 | None => None
                 end) 1) ;;
           match cartFailure e with
           | Some err => Eff.throw err
           | None => Eff.ret tt
           end ;;
           let variantInfo :=
             match variant with
             | Some v =>
                 (" (" ++ Js.or_str (Variant.size v) "Standard" ++ " - "
                  ++ Js.or_str (Variant.color_name v) "Default" ++ ")")%string
             | None => ""
             end in
           BestSelling.act
             (BestSelling.Toast "Added to Cart!"
                (Product.name product ++ variantInfo ++ " added to cart")
                false)
       end)
      (fun _ =>
         BestSelling.act (BestSelling.ConsoleError "Error adding to cart:") ;;
         BestSelling.act
           (BestSelling.Toast "Error" "Error adding to cart. Please try again."
              true)).

(** [handleQuickView(productId)] *)
Definition handleQuickView (productId : string)
  : Eff.M (list BestSelling.action) unit :=
  BestSelling.act
    (BestSelling.Navigate ("/all-products?product=" ++ productId)%string).

End ProductsPageView.

(* ===================================================================== *)
(** ** The detail page: selection, quantity, cart, stars *)
(* ===================================================================== *)

Module ProductDetailView.

Record state : Type := mkState {
  product : option Product.t;
  selectedSize : string;
  selectedColor : string;
  quantity : Z
}.

Definition initial : state := mkState None "" "" 1.


(** [setQuantity(prev => Math.max(1, Math.min(10, prev + change)))] *)
Definition handleQuantityChange (change : Z) (st : state) : state :=
  mkState (product st) (selectedSize st) (selectedColor st)
    (Z.max 1 (Z.min 10 (quantity st + change))).

(** The minus and plus buttons are disabled at the ends of the range. *)
Definition minusDisabled (st : state) : bool := (quantity st <=? 1)%Z.
Definition plusDisabled (st : state) : bool := (10 <=? quantity st)%Z.

Inductive action : Type :=
| CartAdd (productId : string)
| Toast (title description : string) (destructive : bool).

(** [`${n}`] for an integer. *)
Definition show_Z (n : Z) : string := NilZero.string_of_int (Z.to_int n).

(** [handleAddToCart]: one [addToCart(product.id)] for each unit. *)
Definition handleAddToCart (user : bool) (st : state) : list action :=
  if negb user then
    [Toast "Please log in" "You need to be logged in to add items to cart" true]
  else
    match product st with
    | None => []
    | Some p =>
        repeat (CartAdd (Product.id p)) (Z.to_nat (quantity st))
        ++ [Toast "Added to cart"
              (show_Z (quantity st) ++ "x " ++ Product.name p
               ++ " added to your cart")%string
              false]
    end.

(** [product.rating || 4.5], the rating written next to the stars. *)
Definition shownRating (p : Product.t) : Q :=
  if Qeq_bool (Product.rating p) 0 then (9 # 2)%Q else Product.rating p.

(** [renderStars(rating)]: five stars, the one at [index] filled when
    [index < rating]. *)
Definition renderStars (rating : Q) : list bool :=
  map (fun index => negb (Qle_bool rating (inject_Z index)))
    [0%Z; 1%Z; 2%Z; 3%Z; 4%Z].

(** The strip of thumbnails is drawn for more than one image. *)
Definition showThumbnails (p : Product.t) : bool :=
  (1 <? List.length (Product.images p))%nat.

End ProductDetailView.

(* ===================================================================== *)
(** ** The best-selling section: loading and what is drawn *)
(* ===================================================================== *)

Module BestSellingView.
Local Open Scope eff_scope.

Record section : Type := mkSection {
  bestSellingProducts : list Product.t;
  loading : bool;
  hook_of : UseProducts.hook
}.

Definition initial : section := mkSection [] true UseProducts.initial.

Definition setBestSellingProducts (ps : list Product.t)
  : Eff.M section unit :=
  Eff.modify (fun s => mkSection ps (loading s) (hook_of s)).
Definition setLoading (b : bool) : Eff.M section unit :=
  Eff.modify (fun s => mkSection (bestSellingProducts s) b (hook_of s)).
Definition call {A} (c : Eff.M UseProducts.hook A) : Eff.M section A :=
  fun s =>
    match c (hook_of s) with
    | (r, h') => (r, mkSection (bestSellingProducts s) (loading s) h')
    end.

(** [fetchBestSelling] *)
Definition fetchBestSelling (b : Store.backend) : Eff.M section unit :=
  Eff.try_finally
    (Eff.try_catch
       (hotSaleProducts <- call (UseProducts.getHotSaleProducts b) ;;
        setBestSellingProducts hotSaleProducts)
       (fun _ => Eff.ret tt))
    (setLoading false).

(** What the component returns. *)
Inductive rendered : Type :=
| Spinner
| NoProducts
| Row (cards : list BestSelling.card).

Definition render (s : section) : rendered :=
  if loading s then Spinner
  else
    match BestSelling.products (bestSellingProducts s) with
    | [] => NoProducts
    | cards => Row cards
    end.

End BestSellingView.

(* ===================================================================== *)
(** ** Reading what a handler did *)
(* ===================================================================== *)

Module Observe.

(** The calls of the cart service among the actions of a handler. *)
Definition cartAdds (acts : list BestSelling.action)
  : list (string * option string * nat) :=
  flat_map (fun a => match a with
                     | BestSelling.AddToDbCart p v q => [(p, v, q)]
                     | _ => []
                     end) acts.

(** The toasts, each with its title and whether it is an error toast. *)
Definition toasts (acts : list BestSelling.action) : list (string * bool) :=
  flat_map (fun a => match a with
                     | BestSelling.Toast t _ d => [(t, d)]
                     | _ => []
                     end) acts.

(** The id to pass to the cart for a product: that of its first variant
    that is active and in stock, [null] when there is none (or when that id
    is the empty string). *)
Definition variantFor (product : Product.t) : option string :=
  match BestSelling.firstVariant product with
  | Some v => if String.eqb (Variant.id v) "" then None else Some (Variant.id v)
  | None => None
  end.

End Observe.

(* ===================================================================== *)
(** ** Sample data for the concrete scenarios *)
(* ===================================================================== *)

Module Samples.

(** An active product with no images and no variants. *)
Definition product (id name : string) (description : option string)
  (is_hot_sale : bool) (rating : Q) : Product.t :=
  Product.mk id name description None None 100 None None id
    true is_hot_sale rating 0 "2024-01-01T00:00:00.000Z"
    "2024-01-01T00:00:00.000Z" None [] [].

Definition with_images (p : Product.t) (images : list Image.t) : Product.t :=
  Product.mk (Product.id p) (Product.name p) (Product.description p)
    (Product.category_id p) (Product.subcategory p) (Product.price p)
    (Product.original_price p) (Product.sku p) (Product.slug p)
    (Product.is_active p) (Product.is_hot_sale p) (Product.rating p)
    (Product.review_count p) (Product.created_at p) (Product.updated_at p)
    (Product.category p) images (Product.variants p).

Definition with_variants (p : Product.t) (variants : list Variant.t)
  : Product.t :=
  Product.mk (Product.id p) (Product.name p) (Product.description p)
    (Product.category_id p) (Product.subcategory p) (Product.price p)
    (Product.original_price p) (Product.sku p) (Product.slug p)
    (Product.is_active p) (Product.is_hot_sale p) (Product.rating p)
    (Product.review_count p) (Product.created_at p) (Product.updated_at p)
    (Product.category p) (Product.images p) variants.

Definition image (url : string) (is_primary : bool) : Image.t :=
  Image.mk url url None is_primary 0.

Definition variant (id : string) (size color_name color_code : option string)
  : Variant.t :=
  Variant.mk id size color_name color_code 10 0 true.

Definition with_category (p : Product.t) (name slug : string) : Product.t :=
  Product.mk (Product.id p) (Product.name p) (Product.description p)
    (Some slug) (Product.subcategory p) (Product.price p)
    (Product.original_price p) (Product.sku p) (Product.slug p)
    (Product.is_active p) (Product.is_hot_sale p) (Product.rating p)
    (Product.review_count p) (Product.created_at p) (Product.updated_at p)
    (Some (Category.mk name slug)) (Product.images p) (Product.variants p).

(** The clock of the scenarios: every reading is the same instant. *)
Definition noon (_ : nat) : string := "2024-01-01T12:00:00.000Z".

Definition timeout : Js.thrown := Js.ErrorObj "Failed to fetch".

End Samples.

(* ===================================================================== *)
(** ** The filter contract, in the words of the specification *)
(* ===================================================================== *)

Module Spec.

Section Contract.
Variable toLowerCase : string -> string.

(** [s] contains [token] as a case-insensitive substring. *)
Definition contains_ci (s token : string) : Prop :=
  exists pre post, toLowerCase s = (pre ++ toLowerCase token ++ post)%string.

(** The name or the description contains the token; an absent description
    contributes nothing. *)
Definition matches (token : string) (p : Product.t) : Prop :=
  contains_ci (Product.name p) token \/
  exists d, Product.description p = Some d /\ contains_ci d token.

(** The token is empty, or is "all" whatever its case. *)
Definition is_all (token : string) : Prop :=
  token = "" \/ toLowerCase token = "all".

End Contract.

(** Deduplication in first-seen order: every value stays where it first
    occurs and its later occurrences go. *)
Fixpoint first_seen (l : list string) : list string :=
  match l with
  | [] => []
  | x :: l' => x :: List.filter (fun y => negb (String.eqb x y)) (first_seen l')
  end.

(** The non-empty size labels of the variants, in collection order. *)
Definition size_labels (p : Product.t) : list string :=
  flat_map (fun v => match Variant.size v with
                     | Some s => if String.eqb s "" then [] else [s]
                     | None => []
                     end) (Product.variants p).

End Spec.

(* ===================================================================== *)
(** * Properties *)
(* ===================================================================== *)

(** ** Strings, numbers and sets *)

Section JsFacts.

Lemma prefix_iff (t s : string) :
  String.prefix t s = true <-> exists post, s = (t ++ post)%string.
Proof.
  revert s; induction t as [|c t IH]; intros s.
  - split; [intros _; exists s; reflexivity | now destruct s].
  - destruct s as [|d s]; simpl.
    + split; [discriminate | intros [post H]; discriminate].
    + destruct (Ascii.ascii_dec c d) as [->|Hcd].
      * rewrite IH. split; intros [post H]; exists post.
        -- now rewrite H.
        -- now inversion H.
      * split; [discriminate | intros [post H]; inversion H; congruence].
Qed.

(** [includes] is the substring test. *)
Lemma includes_iff (s t : string) :
  Js.includes s t = true <->
  exists pre post, s = (pre ++ t ++ post)%string.
Proof.
  induction s as [|c s IH].
  - change (Js.includes "" t)
      with (if String.prefix t "" then true else false).
    destruct (String.prefix t "") eqn:Hp.
    + split; [intros _ | reflexivity].
      apply prefix_iff in Hp. destruct Hp as [post Hp]. now exists "", post.
    + split; [discriminate|]. intros (pre & post & H).
      destruct pre; [|discriminate]. simpl in H.
      assert (String.prefix t "" = true) by (apply prefix_iff; now exists post).
      congruence.
  - change (Js.includes (String c s) t)
      with (if String.prefix t (String c s) then true else Js.includes s t).
    destruct (String.prefix t (String c s)) eqn:Hp.
    + split; [intros _ | reflexivity].
      apply prefix_iff in Hp. destruct Hp as [post Hp]. now exists "", post.
    + rewrite IH. split.
      * intros (pre & post & H). exists (String c pre), post. now rewrite H.
      * intros (pre & post & H). destruct pre as [|d pre]; simpl in H.
        -- assert (String.prefix t (String c s) = true)
             by (apply prefix_iff; now exists post).
           congruence.
        -- inversion H. now exists pre, post.
Qed.

Lemma includes_empty (s : string) : Js.includes s "" = true.
Proof. apply includes_iff. now exists "", s. Qed.

Lemma strict_eq_NaN_l (n : Js.number) : Js.strict_eq Js.NaN n = false.
Proof. reflexivity. Qed.

Lemma strict_eq_NaN_r (n : Js.number) : Js.strict_eq n Js.NaN = false.
Proof. now destruct n. Qed.

Lemma or_str_not_empty (s : option string) (dflt : string) :
  dflt <> "" -> Js.or_str s dflt <> "".
Proof.
  intros Hd. destruct s as [x|]; simpl; [|exact Hd].
  destruct (String.eqb_spec x ""); congruence.
Qed.

(** *** [new Set] keeps the first occurrence of every value *)

Variable A : Type.
Variable same : A -> A -> bool.
Hypothesis same_spec : forall x y, same x y = true <-> x = y.

Lemma existsb_same_In (x : A) (s : list A) :
  existsb (same x) s = true <-> In x s.
Proof.
  rewrite existsb_exists. split.
  - intros (y & Hy & Hxy). apply same_spec in Hxy. now subst.
  - intros H. exists x. split; [exact H | now apply same_spec].
Qed.

Lemma set_add_In (s : list A) (x y : A) :
  In y (Js.set_add same s x) <-> In y s \/ y = x.
Proof.
  unfold Js.set_add. destruct (existsb (same x) s) eqn:E.
  - apply existsb_same_In in E. split; [tauto|]. intros [H| ->]; assumption.
  - rewrite in_app_iff. simpl. intuition congruence.
Qed.

Lemma set_add_NoDup (s : list A) (x : A) :
  NoDup s -> NoDup (Js.set_add same s x).
Proof.
  intros Hs. unfold Js.set_add. destruct (existsb (same x) s) eqn:E; [exact Hs|].
  assert (~ In x s) as Hx.
  { intros H. apply existsb_same_In in H. congruence. }
  clear E. induction Hs as [|y s Hy Hs IH]; simpl.
  - constructor; [tauto | constructor].
  - constructor.
    + rewrite in_app_iff. simpl. simpl in Hx. intuition congruence.
    + apply IH. simpl in Hx. tauto.
Qed.

Lemma fold_set_add_In (l s : list A) (y : A) :
  In y (fold_left (Js.set_add same) l s) <-> In y s \/ In y l.
Proof.
  revert s; induction l as [|x l IH]; intros s; simpl.
  - tauto.
  - rewrite IH, set_add_In. intuition congruence.
Qed.

Lemma fold_set_add_NoDup (l s : list A) :
  NoDup s -> NoDup (fold_left (Js.set_add same) l s).
Proof.
  revert s; induction l as [|x l IH]; intros s Hs; simpl.
  - exact Hs.
  - apply IH, set_add_NoDup, Hs.
Qed.

Lemma new_Set_In (l : list A) (y : A) : In y (Js.new_Set same l) <-> In y l.
Proof. unfold Js.new_Set. rewrite fold_set_add_In. simpl. tauto. Qed.

Lemma new_Set_NoDup (l : list A) : NoDup (Js.new_Set same l).
Proof. apply fold_set_add_NoDup. constructor. Qed.

End JsFacts.

(** ** The store: ordering and row limit *)

Section SortFacts.

Variable le : Product.t -> Product.t -> bool.
Hypothesis le_total : forall a b, le a b = false -> le b a = true.

Let R (a b : Product.t) : Prop := le a b = true.

Lemma insert_In (x y : Product.t) (l : list Product.t) :
  In y (Store.insert le x l) <-> y = x \/ In y l.
Proof.
  induction l as [|z l IH]; simpl.
  - intuition congruence.
  - destruct (le x z); simpl; [intuition congruence|].
    rewrite IH. tauto.
Qed.

Lemma sort_In (y : Product.t) (l : list Product.t) :
  In y (Store.sort le l) <-> In y l.
Proof.
  induction l as [|x l IH]; simpl; [tauto|].
  rewrite insert_In, IH. intuition congruence.
Qed.

Lemma insert_length (x : Product.t) (l : list Product.t) :
  List.length (Store.insert le x l) = S (List.length l).
Proof.
  induction l as [|z l IH]; simpl; [reflexivity|].
  destruct (le x z); simpl; congruence.
Qed.

Lemma insert_Sorted (x : Product.t) (l : list Product.t) :
  Sorted R l -> Sorted R (Store.insert le x l).
Proof.
  induction 1 as [|z l Hl IH Hz]; simpl.
  - repeat constructor.
  - destruct (le x z) eqn:E.
    + constructor; [constructor; assumption | constructor; exact E].
    + constructor; [exact IH|].
      destruct l as [|u l]; simpl.
      * constructor. apply le_total, E.
      * destruct (le x u); constructor.
        -- apply le_total, E.
        -- now inversion Hz.
Qed.

Lemma sort_Sorted (l : list Product.t) : Sorted R (Store.sort le l).
Proof.
  induction l as [|x l IH]; simpl; [constructor | now apply insert_Sorted].
Qed.

End SortFacts.

Lemma firstn_In {A} (n : nat) (l : list A) (x : A) :
  In x (firstn n l) -> In x l.
Proof.
  revert n; induction l as [|y l IH]; intros [|n]; simpl; try tauto.
  intros [H|H]; [now left | right; eapply IH; exact H].
Qed.

Lemma firstn_StronglySorted {A} (R : A -> A -> Prop) (n : nat) (l : list A) :
  StronglySorted R l -> StronglySorted R (firstn n l).
Proof.
  intros H. revert n. induction H as [|x l Hl IH Hx]; intros [|n]; simpl;
    try constructor.
  - apply IH.
  - rewrite Forall_forall in *. intros y Hy. apply Hx.
    eapply firstn_In. exact Hy.
Qed.

Lemma firstn_Forall {A} (P : A -> Prop) (n : nat) (l : list A) :
  Forall P l -> Forall P (firstn n l).
Proof.
  rewrite !Forall_forall. intros H y Hy. apply H. eapply firstn_In. exact Hy.
Qed.

(** Rows come from the table and satisfy every condition of the query. *)
Lemma rows_sound (table : list Product.t) (q : Store.query) (p : Product.t) :
  In p (Store.rows table q) ->
  In p table /\ forallb (fun k => Store.holds k p) (Store.conds q) = true.
Proof.
  unfold Store.rows. intros H.
  assert (In p (match Store.ordering q with
                | Some (c, asc) =>
                    Store.sort (Store.before c asc)
                      (List.filter
                         (fun p => forallb (fun k => Store.holds k p)
                                     (Store.conds q)) table)
                | None =>
                    List.filter
                      (fun p => forallb (fun k => Store.holds k p)
                                  (Store.conds q)) table
                end)) as H'.
  { destruct (Store.row_limit q); [eapply firstn_In; exact H | exact H]. }
  clear H. destruct (Store.ordering q) as [[c asc]|].
  - apply sort_In in H'. now apply filter_In in H'.
  - now apply filter_In in H'.
Qed.

Lemma rows_limit (table : list Product.t) (q : Store.query) (n : nat) :
  Store.row_limit q = Some n -> List.length (Store.rows table q) <= n.
Proof.
  unfold Store.rows. intros ->. apply firstn_le_length.
Qed.

Lemma StronglySorted_impl {A} (R1 R2 : A -> A -> Prop) (l : list A) :
  (forall a b, R1 a b -> R2 a b) -> StronglySorted R1 l -> StronglySorted R2 l.
Proof.
  intros HR. induction 1 as [|x l Hl IH Hx]; constructor; [exact IH|].
  eapply Forall_impl; [|exact Hx]. intros b. apply HR.
Qed.

Lemma Qle_bool_total (a b : Q) : Qle_bool a b = false -> Qle_bool b a = true.
Proof.
  intros H. apply Qle_bool_iff. apply Qlt_le_weak. apply Qnot_le_lt.
  intros Hle. apply Qle_bool_iff in Hle. congruence.
Qed.

Lemma before_rating_desc (p r : Product.t) :
  Store.before Store.col_rating false p r = true <->
  (Product.rating r <= Product.rating p)%Q.
Proof. unfold Store.before. simpl. apply Qle_bool_iff. Qed.

(** ** The hook *)

Section HookFacts.
Import Store UseProducts.

(** When the backend serves, the recommended products are the rows of the
    query. *)
Lemma getRecommendedProducts_serving table limit h :
  getRecommendedProducts (Serving table) limit h
  = (Eff.Ok (rows table (recommended limit)), h).
Proof. reflexivity. Qed.

Lemma recommended_rows_sorted table limit :
  StronglySorted (fun p r => (Product.rating r <= Product.rating p)%Q)
    (rows table (recommended limit)).
Proof.
  unfold rows, recommended. simpl. apply firstn_StronglySorted.
  apply StronglySorted_impl
    with (R1 := fun p r => before col_rating false p r = true).
  { intros a b. apply before_rating_desc. }
  apply Sorted_StronglySorted.
  - intros a b c Hab Hbc. apply before_rating_desc in Hab, Hbc.
    apply before_rating_desc. eapply Qle_trans; eassumption.
  - apply sort_Sorted. intros a b. unfold before. simpl.
    apply Qle_bool_total.
Qed.

Lemma recommended_rows_sound table limit p :
  In p (rows table (recommended limit)) ->
  In p table /\ Product.is_active p = true /\
  (Product.is_hot_sale p = true \/ (4 <= Product.rating p)%Q).
Proof.
  intros H. apply rows_sound in H. destruct H as [Hin H]. split; [exact Hin|].
  simpl in H. rewrite andb_true_r in H. apply andb_true_iff in H.
  destruct H as [Ha Ho]. split.
  - now apply Bool.eqb_prop in Ha.
  - apply orb_true_iff in Ho. destruct Ho as [Ho|Ho].
    + left. now apply Bool.eqb_prop in Ho.
    + right. now apply Qle_bool_iff.
Qed.

(** C6: [getRecommendedProducts(limit)] returns only active products that
    are on hot sale or rated 4 or more, by descending rating, at most
    [limit] of them; over a catalog of three active products (hot sale
    rated 5, not hot sale rated 3, not hot sale rated 4) and limit 2 it
    returns exactly the first and the third, in that order. *)
Theorem getRecommendedProducts_spec :
  (forall table limit h,
     exists ps,
       getRecommendedProducts (Serving table) limit h = (Eff.Ok ps, h) /\
       Forall (fun p => In p table /\ Product.is_active p = true /\
                        (Product.is_hot_sale p = true \/
                         (4 <= Product.rating p)%Q)) ps /\
       StronglySorted
         (fun p r => (Product.rating r <= Product.rating p)%Q) ps /\
       List.length ps <= limit) /\
  (forall p1 p2 p3 h,
     Product.is_active p1 = true -> Product.is_active p2 = true ->
     Product.is_active p3 = true ->
     Product.is_hot_sale p1 = true -> Product.rating p1 = 5%Q ->
     Product.is_hot_sale p2 = false -> Product.rating p2 = 3%Q ->
     Product.is_hot_sale p3 = false -> Product.rating p3 = 4%Q ->
     getRecommendedProducts (Serving [p1; p2; p3]) 2 h
     = (Eff.Ok [p1; p3], h)).
Proof.
  split.
  - intros table limit h. exists (rows table (recommended limit)).
    split; [reflexivity|]. split; [|split].
    + apply Forall_forall. intros p Hp.
      now apply recommended_rows_sound with (limit := limit).
    + apply recommended_rows_sorted.
    + now apply rows_limit.
  - intros p1 p2 p3 h A1 A2 A3 H1 R1 H2 R2 H3 R3.
    rewrite getRecommendedProducts_serving. f_equal. f_equal.
    unfold rows, recommended. simpl.
    rewrite A1, A2, A3, H1, H2, H3, R1, R2, R3. simpl.
    unfold before. simpl. rewrite R1, R3. reflexivity.
Qed.

End HookFacts.

Lemma getRecommendedProducts_spec_witness :
  UseProducts.getRecommendedProducts
    (Store.Serving [ Samples.product "a" "A" None true 5;
                     Samples.product "b" "B" None false 3;
                     Samples.product "c" "C" None false 4 ])
    2 UseProducts.initial
  = (Eff.Ok [ Samples.product "a" "A" None true 5;
              Samples.product "c" "C" None false 4 ],
     UseProducts.initial).
Proof. apply (proj2 getRecommendedProducts_spec); reflexivity. Defined.

Section FailureFacts.
Import Store UseProducts.

(** C8: when the backend fails, every accessor other than [fetchProducts]
    returns the empty list (list-valued accessors) or [null] (single-product
    accessors) and throws nothing to its caller. *)
Theorem accessors_swallow_backend_errors (b : backend) (h : hook) :
  failed b = true ->
  (forall slug, fst (getProductBySlug b slug h) = Eff.Ok None) /\
  (forall id, fst (getProductById b id h) = Eff.Ok None) /\
  (forall categorySlug,
     fst (getProductsByCategory b categorySlug h) = Eff.Ok []) /\
  fst (getHotSaleProducts b h) = Eff.Ok [] /\
  fst (getAllProducts b h) = Eff.Ok [] /\
  (forall categoryId excludeProductId limit,
     fst (getRelatedProducts b categoryId excludeProductId limit h)
     = Eff.Ok []) /\
  (forall limit, fst (getRecommendedProducts b limit h) = Eff.Ok []).
Proof.
  destruct b as [table|e|e]; [discriminate|..]; intros _;
    repeat split; intros; reflexivity.
Qed.

(** An accessor that failed leaves the state cells alone and logs once. *)
Lemma getAllProducts_failure_logs (b : backend) (h : hook) :
  failed b = true ->
  let h' := snd (getAllProducts b h) in
  products h' = products h /\ loading h' = loading h /\
  error h' = error h /\
  List.length (console h') = S (List.length (console h)).
Proof.
  destruct b as [table|e|e]; [discriminate|..]; intros _; simpl;
    rewrite length_app; simpl; repeat split; lia.
Qed.

(** C1, as the code has it: in the copy of the hook with the fallback, a
    backend failure during [fetchProducts] leaves the three sample products
    with ids 1, 2, 3 in the [products] cell and throws nothing; in the copy
    without the fallback a failure leaves the [products] cell as it was and
    only records the message, again throwing nothing. *)
Theorem fetchProducts_on_failure (b : backend) (now : nat -> string)
  (h : hook) :
  failed b = true ->
  (fst (fetchProducts b now h) = Eff.Ok tt /\
   products (snd (fetchProducts b now h)) = mockProducts now /\
   map Product.id (products (snd (fetchProducts b now h))) = ["1"; "2"; "3"] /\
   loading (snd (fetchProducts b now h)) = false /\
   error (snd (fetchProducts b now h)) <> None) /\
  (fst (UseProductsClient.fetchProducts b h) = Eff.Ok tt /\
   products (snd (UseProductsClient.fetchProducts b h)) = products h /\
   loading (snd (UseProductsClient.fetchProducts b h)) = false /\
   error (snd (UseProductsClient.fetchProducts b h)) <> None).
Proof.
  destruct b as [table|e|e]; [discriminate|..]; intros _;
    repeat split; simpl; discriminate.
Qed.

(** When the backend serves, both copies store the rows of the query. *)
Lemma fetchProducts_serving (table : list Product.t) (now : nat -> string)
  (h : hook) :
  products (snd (fetchProducts (Serving table) now h)) = rows table all_active
  /\ products (snd (UseProductsClient.fetchProducts (Serving table) h))
     = rows table all_active.
Proof. split; reflexivity. Qed.

End FailureFacts.

Lemma accessors_swallow_backend_errors_witness :
  fst (UseProducts.getProductBySlug (Store.Failing Samples.timeout)
         "mens-polo" UseProducts.initial) = Eff.Ok None /\
  fst (UseProducts.getAllProducts (Store.Unreachable Samples.timeout)
         UseProducts.initial) = Eff.Ok [].
Proof.
  split.
  - apply (accessors_swallow_backend_errors (Store.Failing Samples.timeout)
             UseProducts.initial); reflexivity.
  - apply (accessors_swallow_backend_errors (Store.Unreachable Samples.timeout)
             UseProducts.initial); reflexivity.
Defined.

Lemma fetchProducts_on_failure_witness :
  map Product.id
    (UseProducts.products
       (snd (UseProducts.fetchProducts (Store.Failing Samples.timeout)
               Samples.noon UseProducts.initial)))
  = ["1"; "2"; "3"].
Proof.
  apply (fetchProducts_on_failure (Store.Failing Samples.timeout) Samples.noon
           UseProducts.initial); reflexivity.
Defined.

(** C1, as stated, fails on the copy of the hook without the fallback: a
    failed fetch from the initial state leaves no product at all. *)
Lemma fetchProducts_client_no_fallback :
  Store.failed (Store.Failing Samples.timeout) = true /\
  UseProducts.products
    (snd (UseProductsClient.fetchProducts (Store.Failing Samples.timeout)
            UseProducts.initial)) = [] /\
  map Product.id
    (UseProducts.products
       (snd (UseProductsClient.fetchProducts (Store.Failing Samples.timeout)
               UseProducts.initial))) <> ["1"; "2"; "3"].
Proof. repeat split. simpl. discriminate. Qed.

(** ** The listing page *)

Lemma filterM_all_ok {A} (cb : A -> Eff.result bool) (f : A -> bool)
  (l : list A) :
  (forall x, In x l -> cb x = Eff.Ok (f x)) ->
  Eff.filterM cb l = Eff.Ok (List.filter f l).
Proof.
  induction l as [|x l IH]; intros H; simpl; [reflexivity|].
  rewrite (H x (or_introl eq_refl)), IH by (intros y Hy; apply H; now right).
  reflexivity.
Qed.

Lemma filterM_raises {A} (cb : A -> Eff.result bool) (l : list A) (x : A)
  (e : Js.thrown) :
  In x l -> cb x = Eff.Raise e -> exists e', Eff.filterM cb l = Eff.Raise e'.
Proof.
  induction l as [|y l IH]; intros Hin Hx; simpl; [contradiction|].
  destruct (cb y) as [b|e0] eqn:Hy; [|now exists e0].
  destruct Hin as [->|Hin]; [congruence|].
  destruct (IH Hin Hx) as [e' ->]. now exists e'.
Qed.

Lemma filter_filter {A} (f : A -> bool) (l : list A) :
  List.filter f (List.filter f l) = List.filter f l.
Proof.
  induction l as [|x l IH]; simpl; [reflexivity|].
  destruct (f x) eqn:E; simpl; [rewrite E, IH; reflexivity | exact IH].
Qed.

Lemma nth_new {A} (l : list A) (x d : A) : nth (List.length l) (l ++ [x]) d = x.
Proof. induction l; simpl; auto. Qed.

Lemma nth_old {A} (l : list A) (x d : A) (r : nat) :
  r < List.length l -> nth r (l ++ [x]) d = nth r l d.
Proof. intros H. now apply app_nth1. Qed.

Section PageFacts.
Import ProductsPage.

Variable toLowerCase : string -> string.

Lemma effectTest_matches (s : string) (p : Product.t) :
  effectTest toLowerCase s p = true <-> Spec.matches toLowerCase s p.
Proof.
  unfold effectTest, effectCallback, Spec.matches, Spec.contains_ci, Js.or.
  destruct (Js.includes (toLowerCase (Product.name p)) (toLowerCase s)) eqn:En;
    simpl.
  - split; [intros _; left; now apply includes_iff | reflexivity].
  - destruct (Product.description p) as [d|]; simpl.
    + split.
      * intros H. right. exists d. split; [reflexivity | now apply includes_iff].
      * intros [H|(d' & Hd & H)].
        -- apply includes_iff in H. congruence.
        -- injection Hd as <-. now apply includes_iff.
    + split; [discriminate|]. intros [H|(d' & Hd & _)]; [|discriminate].
      apply includes_iff in H. congruence.
Qed.

Lemma deref_new arrs a prods shown_ref sel :
  deref (mkPage (arrs ++ [a]) prods shown_ref sel) (List.length arrs) = a.
Proof. unfold deref. simpl. apply nth_new. Qed.

Lemma deref_old arrs a prods shown_ref sel r :
  r < List.length arrs ->
  deref (mkPage (arrs ++ [a]) prods shown_ref sel) r = nth r arrs [].
Proof. intros H. unfold deref. simpl. now apply nth_old. Qed.

Lemma effect_filtering (s : string) (w : page) :
  s <> "" -> s <> "all" ->
  subcategoryEffect toLowerCase (Some s) w
  = (Eff.Ok tt,
     mkPage (arrays w ++ [List.filter (effectTest toLowerCase s) (deref w (products w))])
       (products w) (List.length (arrays w)) s).
Proof.
  intros H1 H2. unfold subcategoryEffect. simpl.
  destruct (String.eqb_spec s ""); [contradiction|].
  destruct (String.eqb_spec s "all"); [contradiction|]. reflexivity.
Qed.

Lemma effect_passing (tok : option string) (w : page) :
  tok = None \/ tok = Some "" \/ tok = Some "all" ->
  subcategoryEffect toLowerCase tok w
  = (Eff.Ok tt, mkPage (arrays w) (products w) (products w) "all").
Proof. intros [->|[->| ->]]; reflexivity. Qed.

Lemma shown_eq (tok : option string) (ps : list Product.t) :
  shown toLowerCase tok ps
  = match tok with
    | Some s =>
        if String.eqb s "" || String.eqb s "all" then ps
        else List.filter (effectTest toLowerCase s) ps
    | None => ps
    end.
Proof.
  unfold shown. destruct tok as [s|]; [|reflexivity].
  destruct (String.eqb_spec s "") as [->|H1]; [reflexivity|].
  destruct (String.eqb_spec s "all") as [->|H2]; [reflexivity|].
  rewrite effect_filtering by assumption. reflexivity.
Qed.

(** The effect computes the filter of the contract: for a token that is
    neither empty nor "all", the products shown are the subsequence of
    those that match, an absent description matching nothing. *)
Lemma subcategoryEffect_filters (s : string) (w : page) :
  s <> "" -> s <> "all" ->
  let w' := snd (subcategoryEffect toLowerCase (Some s) w) in
  fst (subcategoryEffect toLowerCase (Some s) w) = Eff.Ok tt /\
  deref w' (filteredProducts w')
  = List.filter (effectTest toLowerCase s) (deref w (products w)) /\
  (forall p, In p (deref w' (filteredProducts w')) <->
             In p (deref w (products w)) /\ Spec.matches toLowerCase s p).
Proof.
  intros H1 H2. cbv zeta. rewrite effect_filtering by assumption.
  cbn [fst snd filteredProducts]. rewrite deref_new. repeat split.
  - now apply filter_In in H.
  - apply effectTest_matches. now apply filter_In in H.
  - intros [Hin Hm]. apply filter_In. split; [exact Hin|].
    now apply effectTest_matches.
Qed.

(** C9: the subcategory filter is idempotent: filtering the list that the
    effect has already filtered by the same token gives that list again. *)
Theorem shown_idempotent (tok : option string) (ps : list Product.t) :
  shown toLowerCase tok (shown toLowerCase tok ps) = shown toLowerCase tok ps.
Proof.
  rewrite !shown_eq. destruct tok as [s|]; [|reflexivity].
  destruct (String.eqb s "" || String.eqb s "all"); [reflexivity|].
  apply filter_filter.
Qed.

End PageFacts.

Section ViewFacts.
Import ProductsPage.

Variable toLowerCase : string -> string.

Lemma click_passing (f : string) (w : page) :
  f = "All" \/ f = "all" ->
  handleFilterClick toLowerCase f w
  = (Eff.Ok tt, mkPage (arrays w) (products w) (products w) f).
Proof. intros [->| ->]; reflexivity. Qed.

(** What [handleFilterClick] leaves behind for a real filter: a new array
    when no callback threw, the old state with the new label otherwise. *)
Lemma click_filtering (f : string) (w : page) :
  f <> "All" -> f <> "all" ->
  handleFilterClick toLowerCase f w
  = match Eff.filterM (clickCallback toLowerCase f) (deref w (products w)) with
    | Eff.Ok filtered =>
        (Eff.Ok tt,
         mkPage (arrays w ++ [filtered]) (products w)
           (List.length (arrays w)) f)
    | Eff.Raise e =>
        (Eff.Raise e,
         mkPage (arrays w) (products w) (filteredProducts w) f)
    end.
Proof.
  intros H1 H2. unfold handleFilterClick, Eff.bind. simpl.
  destruct (String.eqb_spec f "All"); [contradiction|].
  destruct (String.eqb_spec f "all"); [contradiction|]. simpl.
  unfold lift, deref. simpl.
  destruct (Eff.filterM (clickCallback toLowerCase f) (nth (products w) (arrays w) []));
    reflexivity.
Qed.

Lemma effect_keeps_arrays (tok : option string) (w : page) (r : ref) :
  r < List.length (arrays w) ->
  deref (snd (subcategoryEffect toLowerCase tok w)) r = deref w r /\
  products (snd (subcategoryEffect toLowerCase tok w)) = products w.
Proof.
  intros Hr. destruct tok as [s|].
  - destruct (String.eqb_spec s "") as [->|H1];
      [rewrite effect_passing by tauto; split; reflexivity|].
    destruct (String.eqb_spec s "all") as [->|H2];
      [rewrite effect_passing by tauto; split; reflexivity|].
    rewrite effect_filtering by assumption. simpl.
    split; [now apply deref_old | reflexivity].
  - rewrite effect_passing by tauto. split; reflexivity.
Qed.

Lemma click_keeps_arrays (f : string) (w : page) (r : ref) :
  r < List.length (arrays w) ->
  deref (snd (handleFilterClick toLowerCase f w)) r = deref w r /\
  products (snd (handleFilterClick toLowerCase f w)) = products w.
Proof.
  intros Hr.
  destruct (String.eqb_spec f "All") as [->|H1];
    [rewrite click_passing by tauto; split; reflexivity|].
  destruct (String.eqb_spec f "all") as [->|H2];
    [rewrite click_passing by tauto; split; reflexivity|].
  rewrite click_filtering by assumption.
  destruct (Eff.filterM _ _); simpl.
  - split; [now apply deref_old | reflexivity].
  - split; reflexivity.
Qed.

(** C5, as the code has it: with an absent or empty token, or the token
    "all" in exactly that spelling, the effect shows the fetched list
    itself: the same array reference, hence equal contents and order, and
    no new collection; [handleFilterClick] does so for "All" and "all".
    No filtering operation changes an array that exists, the fetched
    list included; a real filter puts its result in a new array. *)
Theorem unfiltered_view_is_the_fetched_array (w : page) :
  (forall tok, tok = None \/ tok = Some "" \/ tok = Some "all" ->
     let w' := snd (subcategoryEffect toLowerCase tok w) in
     filteredProducts w' = products w /\ arrays w' = arrays w /\
     deref w' (filteredProducts w') = deref w (products w)) /\
  (forall f, f = "All" \/ f = "all" ->
     let w' := snd (handleFilterClick toLowerCase f w) in
     filteredProducts w' = products w /\ arrays w' = arrays w /\
     deref w' (filteredProducts w') = deref w (products w)) /\
  (forall tok r, r < List.length (arrays w) ->
     deref (snd (subcategoryEffect toLowerCase tok w)) r = deref w r /\
     products (snd (subcategoryEffect toLowerCase tok w)) = products w) /\
  (forall f r, r < List.length (arrays w) ->
     deref (snd (handleFilterClick toLowerCase f w)) r = deref w r /\
     products (snd (handleFilterClick toLowerCase f w)) = products w) /\
  (forall s, s <> "" -> s <> "all" ->
     filteredProducts (snd (subcategoryEffect toLowerCase (Some s) w))
     = List.length (arrays w)).
Proof.
  split; [|split; [|split; [|split]]].
  - intros tok H. cbv zeta. rewrite effect_passing by exact H.
    repeat split.
  - intros f H. cbv zeta. rewrite click_passing by exact H. repeat split.
  - intros tok r. apply effect_keeps_arrays.
  - intros f r. apply click_keeps_arrays.
  - intros s H1 H2. rewrite effect_filtering by assumption. reflexivity.
Qed.

(** [handleFilterClick] throws as soon as the list holds a product without
    description whose name does not contain the filter. *)
Lemma handleFilterClick_throws (f : string) (w : page) (p : Product.t) :
  f <> "All" -> f <> "all" ->
  In p (deref w (products w)) ->
  Product.description p = None ->
  Js.includes (toLowerCase (Product.name p)) (toLowerCase f) = false ->
  exists e, fst (handleFilterClick toLowerCase f w) = Eff.Raise e.
Proof.
  intros H1 H2 Hin Hd Hn. rewrite click_filtering by assumption.
  destruct (filterM_raises (clickCallback toLowerCase f)
              (deref w (products w)) p
              (Js.ErrorObj "Cannot read properties of null (reading 'toLowerCase')")
              Hin) as [e He].
  { unfold clickCallback. now rewrite Hn, Hd. }
  rewrite He. now exists e.
Qed.

(** When every product has a description, [handleFilterClick] computes the
    same filter as the effect. *)
Lemma handleFilterClick_filters (f : string) (w : page) :
  f <> "All" -> f <> "all" ->
  (forall p, In p (deref w (products w)) -> Product.description p <> None) ->
  let w' := snd (handleFilterClick toLowerCase f w) in
  fst (handleFilterClick toLowerCase f w) = Eff.Ok tt /\
  deref w' (filteredProducts w')
  = List.filter (effectTest toLowerCase f) (deref w (products w)).
Proof.
  intros H1 H2 Hd. cbv zeta. rewrite click_filtering by assumption.
  rewrite (filterM_all_ok _ (effectTest toLowerCase f)).
  - simpl. rewrite deref_new. split; reflexivity.
  - intros p Hp. specialize (Hd p Hp).
    unfold clickCallback, effectTest, effectCallback, Js.or.
    destruct (Js.includes (toLowerCase (Product.name p)) (toLowerCase f));
      [reflexivity|].
    destruct (Product.description p); [reflexivity | contradiction].
Qed.

End ViewFacts.

Lemma unfiltered_view_is_the_fetched_array_witness :
  let w := ProductsPage.loaded [Samples.product "p1" "Polo Shirt" None false 4] in
  ProductsPage.filteredProducts
    (snd (ProductsPage.subcategoryEffect Js.ascii_toLowerCase (Some "all") w))
  = ProductsPage.products w.
Proof.
  apply (unfiltered_view_is_the_fetched_array Js.ascii_toLowerCase
           (ProductsPage.loaded
              [Samples.product "p1" "Polo Shirt" None false 4])).
  right; right; reflexivity.
Defined.

(** C5, as stated, fails twice. The token "ALL" is "all" up to case, yet
    the effect treats it as a search word and shows nothing of a list whose
    product does not contain it; and with the token "all" the list shown is
    the fetched array itself, no array having been created. *)
Lemma all_token_counterexample :
  let shirt := Samples.product "p1" "Polo Shirt" None false 4 in
  let w := ProductsPage.loaded [shirt] in
  Spec.is_all Js.ascii_toLowerCase "ALL" /\
  ProductsPage.shown Js.ascii_toLowerCase (Some "ALL") [shirt] = [] /\
  ProductsPage.shown Js.ascii_toLowerCase (Some "ALL") [shirt] <> [shirt] /\
  Spec.is_all Js.ascii_toLowerCase "all" /\
  ProductsPage.filteredProducts
    (snd (ProductsPage.subcategoryEffect Js.ascii_toLowerCase (Some "all") w))
  = ProductsPage.products w /\
  ProductsPage.arrays
    (snd (ProductsPage.subcategoryEffect Js.ascii_toLowerCase (Some "all") w))
  = ProductsPage.arrays w.
Proof.
  cbv zeta. repeat split; try (right; reflexivity). discriminate.
Qed.

(** C2 at its failing input: [handleFilterClick("Polo")] over a list whose
    only product has no description and a name without "polo" throws a
    [TypeError], where the subcategory effect shows the empty list. *)
Theorem handleFilterClick_null_description_throws :
  let tee := Samples.product "p1" "Round Neck Tee" None false 4 in
  fst (ProductsPage.handleFilterClick Js.ascii_toLowerCase "Polo"
         (ProductsPage.loaded [tee]))
  = Eff.Raise
      (Js.ErrorObj "Cannot read properties of null (reading 'toLowerCase')") /\
  ProductsPage.shown Js.ascii_toLowerCase (Some "Polo") [tee] = [].
Proof. split; reflexivity. Qed.

(** The effect and the click handler agree on a product that has a
    description. *)
Example filter_with_description :
  let polo :=
    Samples.product "p2" "Classic Tee" (Some "A POLO collar") false 4 in
  ProductsPage.shown Js.ascii_toLowerCase (Some "Polo") [polo] = [polo] /\
  fst (ProductsPage.handleFilterClick Js.ascii_toLowerCase "Polo"
         (ProductsPage.loaded [polo])) = Eff.Ok tt.
Proof. split; reflexivity. Qed.

(** ** The category table *)

(** Every key of the table maps to its slug. *)
Lemma getCategorySlug_keys :
  ProductsPage.getCategorySlug "men" = Js.VStr "mens-t-shirts" /\
  ProductsPage.getCategorySlug "men-tshirts" = Js.VStr "mens-t-shirts" /\
  ProductsPage.getCategorySlug "men-bottomwear" = Js.VStr "mens-bottomwear" /\
  ProductsPage.getCategorySlug "women" = Js.VStr "womens-leggings" /\
  ProductsPage.getCategorySlug "women-leggings" = Js.VStr "womens-leggings" /\
  ProductsPage.getCategorySlug "shapewear" = Js.VStr "saree-shapewear" /\
  ProductsPage.getCategorySlug "nightwear" = Js.VStr "night-wear".
Proof. repeat split. Qed.

Lemma getCategorySlug_table (category : string) (v : Js.value) :
  Js.assoc category ProductsPage.categoryMap = Some v ->
  ProductsPage.getCategorySlug category = v.
Proof.
  unfold ProductsPage.getCategorySlug, Js.get. intros H. rewrite H.
  simpl in H.
  repeat match type of H with
         | (if ?c then _ else _) = _ => destruct c
         end; try discriminate; injection H as <-; reflexivity.
Qed.

(** A string that is neither a key of the table nor the name of a property
    of [Object.prototype] comes back unchanged. *)
Lemma getCategorySlug_fallback (category : string) :
  Js.assoc category ProductsPage.categoryMap = None ->
  Js.assoc category Js.Object_prototype = None ->
  ProductsPage.getCategorySlug category = Js.VStr category.
Proof.
  unfold ProductsPage.getCategorySlug, Js.get. intros -> ->. reflexivity.
Qed.

(** C7 at its failing input: "constructor" is no key of the table, yet the
    lookup finds the property that the table inherits, so what comes back
    is that function and not the input string. *)
Theorem getCategorySlug_constructor :
  Js.assoc "constructor" ProductsPage.categoryMap = None /\
  ProductsPage.getCategorySlug "constructor" = Js.VBuiltin "Object" /\
  ProductsPage.getCategorySlug "constructor" <> Js.VStr "constructor".
Proof. repeat split. discriminate. Qed.

Example getCategorySlug_unknown :
  ProductsPage.getCategorySlug "kids" = Js.VStr "kids" /\
  ProductsPage.getCategorySlug "" = Js.VStr "".
Proof. split; reflexivity. Qed.

(** ** Facets of the detail page *)

Lemma filter_comm {A} (f g : A -> bool) (l : list A) :
  List.filter f (List.filter g l) = List.filter g (List.filter f l).
Proof.
  induction l as [|x l IH]; simpl; [reflexivity|].
  destruct (f x) eqn:Ef, (g x) eqn:Eg; simpl; rewrite ?Ef, ?Eg, IH; reflexivity.
Qed.

Lemma filter_absorb {A} (f g : A -> bool) (l : list A) :
  (forall y, f y = true -> g y = true) ->
  List.filter f (List.filter g l) = List.filter f l.
Proof.
  intros H. induction l as [|x l IH]; simpl; [reflexivity|].
  destruct (g x) eqn:Eg; simpl.
  - destruct (f x); rewrite IH; reflexivity.
  - destruct (f x) eqn:Ef; [|exact IH]. apply H in Ef. congruence.
Qed.

Lemma filter_and {A} (f g : A -> bool) (l : list A) :
  List.filter f (List.filter g l) = List.filter (fun y => f y && g y) l.
Proof.
  induction l as [|x l IH]; simpl; [reflexivity|].
  destruct (g x) eqn:Eg; simpl.
  - rewrite andb_true_r. destruct (f x); rewrite IH; reflexivity.
  - rewrite andb_false_r. exact IH.
Qed.

Lemma first_seen_filter (g : string -> bool) (l : list string) :
  Spec.first_seen (List.filter g l) = List.filter g (Spec.first_seen l).
Proof.
  induction l as [|x l IH]; simpl; [reflexivity|].
  destruct (g x) eqn:Eg; simpl; rewrite IH.
  - now rewrite filter_comm.
  - symmetry. apply filter_absorb. intros y Hy.
    destruct (String.eqb_spec x y) as [->|]; [congruence | reflexivity].
Qed.

(** Building a [Set] of strings, value after value, is deduplication in
    first-seen order. *)
Lemma fold_set_add_first_seen (l acc : list string) :
  fold_left (Js.set_add String.eqb) l acc
  = acc ++ Spec.first_seen
             (List.filter (fun x => negb (existsb (String.eqb x) acc)) l).
Proof.
  revert acc; induction l as [|x l IH]; intros acc; simpl.
  - now rewrite app_nil_r.
  - unfold Js.set_add at 2. destruct (existsb (String.eqb x) acc) eqn:E; simpl.
    + apply IH.
    + rewrite IH, <- app_assoc. simpl. do 2 f_equal.
      rewrite <- first_seen_filter. f_equal. rewrite filter_and.
      apply filter_ext. intros y. rewrite existsb_app. simpl.
      rewrite orb_false_r, negb_orb, (String.eqb_sym y x). apply andb_comm.
Qed.

Lemma new_Set_first_seen (l : list string) :
  Js.new_Set String.eqb l = Spec.first_seen l.
Proof.
  unfold Js.new_Set. rewrite fold_set_add_first_seen. simpl.
  f_equal. induction l; simpl; congruence.
Qed.

Lemma flat_map_map {A B C} (f : B -> list C) (g : A -> B) (l : list A) :
  flat_map f (map g l) = flat_map (fun x => f (g x)) l.
Proof. induction l as [|x l IH]; simpl; [reflexivity | now rewrite IH]. Qed.

Lemma size_labels_In (p : Product.t) (s : string) :
  In s (Spec.size_labels p) <->
  s <> "" /\ exists v, In v (Product.variants p) /\ Variant.size v = Some s.
Proof.
  unfold Spec.size_labels. rewrite in_flat_map. split.
  - intros (v & Hv & Hs). destruct (Variant.size v) as [x|] eqn:E; [|contradiction].
    destruct (String.eqb_spec x ""); [contradiction|].
    destruct Hs as [<-|[]]. split; [assumption|]. now exists v.
  - intros (Hne & v & Hv & E). exists v. split; [exact Hv|]. rewrite E.
    destruct (String.eqb_spec s ""); [contradiction | now left].
Qed.

(** The size facet is correct: the non-empty size labels of the variants,
    each once, in first-seen order. *)
Lemma sizeOptions_facet (p : Product.t) :
  ProductDetailPage.sizeOptions p = Spec.first_seen (Spec.size_labels p) /\
  NoDup (ProductDetailPage.sizeOptions p) /\
  (forall s, In s (ProductDetailPage.sizeOptions p) <->
     s <> "" /\ exists v, In v (Product.variants p) /\ Variant.size v = Some s).
Proof.
  unfold ProductDetailPage.sizeOptions. rewrite flat_map_map.
  fold (Spec.size_labels p). split; [apply new_Set_first_seen|]. split.
  - apply new_Set_NoDup. intros x y. apply String.eqb_eq.
  - intros s. rewrite new_Set_In by (intros x y; apply String.eqb_eq).
    apply size_labels_In.
Qed.

(** *** Colours: a [Set] of new objects removes nothing *)

Section Objects.
Variable F : Type.

Lemma fold_set_add_distinct (l acc : list (Js.object F)) :
  NoDup (map Js.address (acc ++ l)) ->
  fold_left (Js.set_add Js.same_object) l acc = acc ++ l.
Proof.
  revert acc; induction l as [|x l IH]; intros acc H; simpl.
  - now rewrite app_nil_r.
  - assert (existsb (Js.same_object x) acc = false) as E.
    { destruct (existsb (Js.same_object x) acc) eqn:E; [|reflexivity].
      apply existsb_exists in E. destruct E as (y & Hy & Hxy).
      apply Nat.eqb_eq in Hxy. rewrite map_app in H. simpl in H.
      apply NoDup_remove_2 in H. exfalso. apply H.
      rewrite in_app_iff. left. rewrite Hxy. now apply in_map. }
    unfold Js.set_add at 2. rewrite E.
    rewrite IH by (now rewrite <- app_assoc). now rewrite <- app_assoc.
Qed.

Lemma new_Set_distinct (l : list (Js.object F)) :
  NoDup (map Js.address l) -> Js.new_Set Js.same_object l = l.
Proof. intros H. unfold Js.new_Set. now rewrite fold_set_add_distinct. Qed.

Lemma map_fresh_address {A} (f : A -> F) (next : nat) (l : list A) :
  map Js.address (Js.map_fresh f next l) = seq next (List.length l).
Proof.
  revert next; induction l as [|x l IH]; intros next; simpl;
    [reflexivity | now rewrite IH].
Qed.

Lemma map_fresh_fields {A} (f : A -> F) (g : F -> bool) (next : nat)
  (l : list A) :
  map Js.fields
    (List.filter (fun o => g (Js.fields o)) (Js.map_fresh f next l))
  = List.filter g (map f l).
Proof.
  revert next; induction l as [|x l IH]; intros next; simpl; [reflexivity|].
  destruct (g (f x)); simpl; now rewrite IH.
Qed.

Lemma NoDup_map_filter {A B} (h : A -> B) (g : A -> bool) (l : list A) :
  NoDup (map h l) -> NoDup (map h (List.filter g l)).
Proof.
  induction l as [|x l IH]; simpl; intros H; [constructor|].
  inversion H as [|? ? Hx Hl]; subst.
  destruct (g x); simpl; [|now apply IH].
  constructor; [|now apply IH].
  intros Hin. apply Hx. apply in_map_iff in Hin.
  destruct Hin as (y & Hy & Hin). apply filter_In in Hin.
  apply in_map_iff. exists y. tauto.
Qed.

End Objects.

(** The colour facet is the list of colours of the variants that have a
    colour name, one entry for each such variant: nothing is removed. *)
Lemma colorOptions_eq (next : nat) (p : Product.t) :
  ProductDetailPage.colorOptions next p
  = List.filter (fun c => Js.truthy_str (ProductDetailPage.name c))
      (map (fun v => ProductDetailPage.mkColor (Variant.color_name v)
                       (Variant.color_code v))
         (Product.variants p)).
Proof.
  unfold ProductDetailPage.colorOptions. rewrite new_Set_distinct.
  - apply (map_fresh_fields _
             (fun v => ProductDetailPage.mkColor (Variant.color_name v)
                         (Variant.color_code v))
             (fun c => Js.truthy_str (ProductDetailPage.name c))).
  - apply NoDup_map_filter. rewrite map_fresh_address. apply seq_NoDup.
Qed.

(** No colour of the facet has a null or empty name. *)
Lemma colorOptions_named (next : nat) (p : Product.t) (c : ProductDetailPage.color) :
  In c (ProductDetailPage.colorOptions next p) ->
  exists n, ProductDetailPage.name c = Some n /\ n <> "".
Proof.
  rewrite colorOptions_eq. intros H. apply filter_In in H. destruct H as [_ H].
  destruct (ProductDetailPage.name c) as [n|]; [|discriminate].
  exists n. split; [reflexivity|]. simpl in H.
  destruct (String.eqb_spec n ""); [discriminate | assumption].
Qed.

(** C3 at its failing input: two variants of one colour (Black in M and in
    L) give the colour facet two entries named Black, the [Set] comparing
    the two new objects by identity; the card of the best-selling section
    lists the colour twice as well, and a size twice when two variants
    share it. The size facet of the detail page has each size once. *)
Theorem colorOptions_duplicate :
  let p :=
    Samples.with_variants (Samples.product "p1" "Polo Shirt" None true 5)
      [ Samples.variant "v1" (Some "M") (Some "Black") (Some "#000000");
        Samples.variant "v2" (Some "L") (Some "Black") (Some "#000000");
        Samples.variant "v3" (Some "M") (Some "White") (Some "#ffffff") ] in
  map ProductDetailPage.name (ProductDetailPage.colorOptions 0 p)
  = [Some "Black"; Some "Black"; Some "White"] /\
  ~ NoDup (map ProductDetailPage.name (ProductDetailPage.colorOptions 0 p)) /\
  map fst (BestSelling.colors (BestSelling.toCard p))
  = ["Black"; "Black"; "White"] /\
  BestSelling.sizes (BestSelling.toCard p) = ["M"; "L"; "M"] /\
  ProductDetailPage.sizeOptions p = ["M"; "L"].
Proof.
  cbv zeta. repeat split.
  intros H. inversion H as [|x l Hx _]; subst. apply Hx. now left.
Qed.

(** ** The representative image *)

Lemma find_first {A} (f : A -> bool) (pre post : list A) (x : A) :
  (forall y, In y pre -> f y = false) -> f x = true ->
  List.find f (pre ++ x :: post) = Some x.
Proof.
  intros Hpre Hx. induction pre as [|y pre IH]; simpl.
  - now rewrite Hx.
  - rewrite (Hpre y (or_introl eq_refl)). apply IH.
    intros z Hz. apply Hpre. now right.
Qed.

Lemma find_absent {A} (f : A -> bool) (l : list A) :
  (forall y, In y l -> f y = false) -> List.find f l = None.
Proof.
  intros H. induction l as [|y l IH]; simpl; [reflexivity|].
  rewrite (H y (or_introl eq_refl)). apply IH. intros z Hz. apply H. now right.
Qed.

(** C4, as the code has it, for the selection of the detail page (and of
    the add-to-cart handler of the best-selling section): the url of the
    first image whose [is_primary] is true, wherever it stands; failing
    that, the url of the first image; and the placeholder when there is no
    image or when the url selected is the empty string. *)
Theorem primaryImageSrc_selection (p : Product.t) :
  (forall pre img post,
     Product.images p = pre ++ img :: post ->
     (forall i, In i pre -> Image.is_primary i = false) ->
     Image.is_primary img = true ->
     ProductDetailPage.primaryImageSrc p
     = if String.eqb (Image.image_url img) "" then "/placeholder.svg"
       else Image.image_url img) /\
  (forall img rest,
     Product.images p = img :: rest ->
     (forall i, In i (Product.images p) -> Image.is_primary i = false) ->
     ProductDetailPage.primaryImageSrc p
     = if String.eqb (Image.image_url img) "" then "/placeholder.svg"
       else Image.image_url img) /\
  (Product.images p = [] ->
   ProductDetailPage.primaryImageSrc p = "/placeholder.svg").
Proof.
  unfold ProductDetailPage.primaryImageSrc, ProductDetailPage.primaryImage.
  repeat split.
  - intros pre img post -> Hpre Himg.
    rewrite (find_first _ pre post img Hpre Himg). reflexivity.
  - intros img rest E Hnone. rewrite (find_absent _ _ Hnone), E. reflexivity.
  - intros ->. reflexivity.
Qed.

Lemma primaryImageSrc_selection_witness :
  ProductDetailPage.primaryImageSrc
    (Samples.with_images (Samples.product "p1" "Polo Shirt" None true 5)
       [ Samples.image "/front.jpg" false; Samples.image "/back.jpg" true ])
  = "/back.jpg".
Proof.
  apply (proj1 (primaryImageSrc_selection
                  (Samples.with_images
                     (Samples.product "p1" "Polo Shirt" None true 5)
                     [ Samples.image "/front.jpg" false;
                       Samples.image "/back.jpg" true ]))
           [Samples.image "/front.jpg" false]
           (Samples.image "/back.jpg" true) []).
  - reflexivity.
  - intros i [<-|[]]. reflexivity.
  - reflexivity.
Defined.

(** C4, as stated, fails when the primary image has the empty string for
    url: the selection returns the placeholder, not that url. *)
Lemma primaryImageSrc_empty_url :
  let img := Samples.image "" true in
  let p :=
    Samples.with_images (Samples.product "p1" "Polo Shirt" None true 5) [img] in
  In img (Product.images p) /\ Image.is_primary img = true /\
  ProductDetailPage.primaryImageSrc p = "/placeholder.svg" /\
  ProductDetailPage.primaryImageSrc p <> Image.image_url img.
Proof. cbv zeta. repeat split; [now left | discriminate]. Qed.

(** The listing cards take the first image whether it is primary or not. *)
Example cardImage_first_image :
  let p :=
    Samples.with_images (Samples.product "p1" "Polo Shirt" None true 5)
      [ Samples.image "/front.jpg" false; Samples.image "/back.jpg" true ] in
  ProductsPage.cardImage p = "/front.jpg" /\
  BestSelling.image (BestSelling.toCard p) = "/front.jpg" /\
  ProductDetailPage.primaryImageSrc p = "/back.jpg".
Proof. repeat split. Qed.

(** ** The best-selling section *)

Section BestSellingFacts.
Import BestSelling.

Lemma lookup_NaN (ps : list Product.t) : lookup ps Js.NaN = None.
Proof.
  unfold lookup. apply find_absent. intros p _. apply strict_eq_NaN_r.
Qed.

Lemma strict_eq_Num (a : Js.number) (n : Z) :
  Js.strict_eq a (Js.Num n) = true <-> a = Js.Num n.
Proof.
  destruct a as [|z]; simpl; [split; discriminate|].
  rewrite Z.eqb_eq. split; congruence.
Qed.

(** The product found for a numeric card id is the first one of the list
    whose id parses to that number. *)
Lemma lookup_first (pre post : list Product.t) (p : Product.t) (n : Z) :
  (forall x, In x pre -> Js.parseInt (Product.id x) <> Js.Num n) ->
  Js.parseInt (Product.id p) = Js.Num n ->
  lookup (pre ++ p :: post) (Js.Num n) = Some p.
Proof.
  intros Hpre Hp. unfold lookup. apply find_first.
  - intros x Hx. destruct (Js.strict_eq _ _) eqn:E; [|reflexivity].
    apply strict_eq_Num in E. now apply Hpre in E.
  - now apply strict_eq_Num.
Qed.

(** C10: a product whose id does not parse to a number ([parseInt] gives
    [NaN]) gets a card whose id no lookup can find, so that the quick-view
    and add-to-cart handlers do nothing for it; and two products whose ids
    parse to the same integer get the same card id, so that the lookup, and
    with it both handlers, cannot tell them apart: whichever card was
    clicked, the product found is the first of the list with that number
    (for the ids 7 and 7x, the click on the second card acts on the first
    product). *)
Theorem parseInt_lookup :
  (forall e p done,
     Js.parseInt (Product.id p) = Js.NaN ->
     lookup (bestSellingProducts e) (id (toCard p)) = None /\
     handleQuickView e (id (toCard p)) done = (Eff.Ok tt, done) /\
     handleAddToCart e (id (toCard p)) done = (Eff.Ok tt, done)) /\
  (forall e p q done,
     Js.parseInt (Product.id p) = Js.parseInt (Product.id q) ->
     id (toCard p) = id (toCard q) /\
     lookup (bestSellingProducts e) (id (toCard p))
     = lookup (bestSellingProducts e) (id (toCard q)) /\
     handleQuickView e (id (toCard p)) done
     = handleQuickView e (id (toCard q)) done /\
     handleAddToCart e (id (toCard p)) done
     = handleAddToCart e (id (toCard q)) done) /\
  (forall pre post p q n,
     (forall x, In x pre -> Js.parseInt (Product.id x) <> Js.Num n) ->
     Js.parseInt (Product.id p) = Js.Num n ->
     Js.parseInt (Product.id q) = Js.Num n ->
     lookup (pre ++ p :: post) (id (toCard q)) = Some p) /\
  (let p7 := Samples.product "7" "Polo Shirt" None true 5 in
   let p7x := Samples.product "7x" "Track Pants" None true 4 in
   p7 <> p7x /\
   lookup [p7; p7x] (id (toCard p7x)) = Some p7 /\
   handleQuickView (mkEnv [p7; p7x] true false true None) (id (toCard p7x)) []
   = (Eff.Ok tt, [OnQuickView "7"])).
Proof.
  split; [|split; [|split]].
  - intros e p done Hnan. simpl. rewrite Hnan.
    unfold handleQuickView, handleAddToCart. rewrite lookup_NaN.
    repeat split.
  - intros e p q done Heq. simpl. rewrite Heq. repeat split.
  - intros pre post p q n Hpre Hp Hq. simpl. rewrite Hq.
    now apply lookup_first.
  - cbv zeta. repeat split. discriminate.
Qed.

End BestSellingFacts.

Lemma parseInt_lookup_witness :
  BestSelling.handleAddToCart
    (BestSelling.mkEnv
       [Samples.product "a3f9-11" "Polo Shirt" None true 5] false true true None)
    (BestSelling.id
       (BestSelling.toCard (Samples.product "a3f9-11" "Polo Shirt" None true 5)))
    []
  = (Eff.Ok tt, []).
Proof.
  apply (proj1 parseInt_lookup
           (BestSelling.mkEnv
              [Samples.product "a3f9-11" "Polo Shirt" None true 5]
              false true true None)
           (Samples.product "a3f9-11" "Polo Shirt" None true 5) []).
  reflexivity.
Defined.

(** ** Sanity checks of the primitives *)

Example parseInt_7 : Js.parseInt "7" = Js.Num 7.
Proof. reflexivity. Qed.

Example parseInt_7x : Js.parseInt "7x" = Js.Num 7.
Proof. reflexivity. Qed.

Example parseInt_uuid : Js.parseInt "a3f9-11" = Js.NaN.
Proof. reflexivity. Qed.

Example parseInt_hex : Js.parseInt " -0x1f" = Js.Num (-31).
Proof. reflexivity. Qed.

Example parseInt_rounds :
  Js.parseInt "9007199254740993" = Js.Num 9007199254740992 /\
  Js.parseInt "9007199254740995" = Js.Num 9007199254740996 /\
  Js.parseInt "1234567890123456789" = Js.parseInt "1234567890123456790".
Proof. repeat split. Qed.

Example includes_neck : Js.includes "round neck" "neck" = true.
Proof. reflexivity. Qed.

Example toLowerCase_v_neck : Js.ascii_toLowerCase "V-Neck" = "v-neck".
Proof. reflexivity. Qed.

Example new_Set_sizes :
  Js.new_Set String.eqb ["M"; "L"; "M"; "XL"; "L"] = ["M"; "L"; "XL"].
Proof. reflexivity. Qed.

(* ===================================================================== *)
(** * Further properties of the hook *)
(* ===================================================================== *)

(** ** Order on timestamps and permutations of rows *)

Lemma ascii_compare_trans (a b c : ascii) (o : comparison) :
  Ascii.compare a b = o -> Ascii.compare b c = o -> Ascii.compare a c = o.
Proof.
  unfold Ascii.compare. destruct o; intros H1 H2.
  - apply N.compare_eq_iff in H1, H2. apply N.compare_eq_iff. congruence.
  - apply N.compare_lt_iff in H1, H2. apply N.compare_lt_iff.
    eapply N.lt_trans; eassumption.
  - apply N.compare_gt_iff in H1, H2. apply N.compare_gt_iff.
    eapply N.lt_trans; eassumption.
Qed.

Lemma ascii_compare_eq (a b : ascii) : Ascii.compare a b = Eq -> a = b.
Proof.
  unfold Ascii.compare. intros H. apply N.compare_eq_iff in H.
  rewrite <- (ascii_N_embedding a), <- (ascii_N_embedding b). now rewrite H.
Qed.

Lemma string_leb_trans (s1 s2 s3 : string) :
  String.leb s1 s2 = true -> String.leb s2 s3 = true -> String.leb s1 s3 = true.
Proof.
  unfold String.leb. revert s2 s3.
  induction s1 as [|a s1 IH]; intros [|b s2] [|c s3]; simpl;
    try reflexivity; try discriminate.
  destruct (Ascii.compare a b) eqn:Eab; try discriminate.
  - apply ascii_compare_eq in Eab. subst b.
    destruct (Ascii.compare a c); try discriminate; try reflexivity.
    apply IH.
  - destruct (Ascii.compare b c) eqn:Ebc; try discriminate.
    + apply ascii_compare_eq in Ebc. subst c. now rewrite Eab.
    + now rewrite (ascii_compare_trans a b c Lt Eab Ebc).
Qed.

Lemma before_created_desc (p r : Product.t) :
  Store.before Store.col_created_at false p r
  = String.leb (Product.created_at r) (Product.created_at p).
Proof. reflexivity. Qed.

Lemma insert_Permutation le (x : Product.t) (l : list Product.t) :
  Permutation (x :: l) (Store.insert le x l).
Proof.
  induction l as [|y l IH]; simpl; [reflexivity|].
  destruct (le x y); [reflexivity|].
  rewrite perm_swap. now constructor.
Qed.

Lemma sort_Permutation le (l : list Product.t) :
  Permutation l (Store.sort le l).
Proof.
  induction l as [|x l IH]; simpl; [constructor|].
  rewrite <- insert_Permutation. now constructor.
Qed.

(** Newest first: every row is at least as recent as the rows after it. *)
Lemma sort_newest_first (l : list Product.t) :
  StronglySorted
    (fun p r => String.leb (Product.created_at r) (Product.created_at p) = true)
    (Store.sort (Store.before Store.col_created_at false) l).
Proof.
  apply Sorted_StronglySorted.
  - intros a b c Hab Hbc. eapply string_leb_trans; eassumption.
  - apply (sort_Sorted (Store.before Store.col_created_at false)).
    intros a b H. rewrite before_created_desc in *.
    destruct (String.leb_total (Product.created_at a) (Product.created_at b));
      congruence.
Qed.

Section AccessorFacts.
Import Store UseProducts.

Lemma eqb_true_r (b : bool) : Bool.eqb b true = b.
Proof. now destruct b. Qed.

(** The hot-sale rows, as the section of best-selling products uses them. *)
Lemma hot_sale_rows (table : list Product.t) (h : hook) :
  exists ps,
    getHotSaleProducts (Serving table) h = (Eff.Ok ps, h) /\
    Permutation ps
      (List.filter (fun p => Product.is_hot_sale p && Product.is_active p)
         table) /\
    StronglySorted
      (fun p r => String.leb (Product.created_at r) (Product.created_at p)
                  = true) ps.
Proof.
  eexists. split; [reflexivity|]. unfold data_or_empty, rows; simpl.
  split; [|apply sort_newest_first]. rewrite <- sort_Permutation.
  erewrite filter_ext; [reflexivity|]. intros p. simpl.
  now rewrite !eqb_true_r, andb_true_r.
Qed.

(** X4. When the backend serves, [getAllProducts], [getHotSaleProducts] and
    [getProductsByCategory] return exactly the matching rows of the table
    (all of them, each as often as the table has it), newest first, and
    leave the hook as it was; a product without category belongs to no
    category. *)
Theorem list_accessors_serving (table : list Product.t) (h : hook) :
  (exists ps,
     getAllProducts (Serving table) h = (Eff.Ok ps, h) /\
     Permutation ps (List.filter Product.is_active table) /\
     StronglySorted
       (fun p r => String.leb (Product.created_at r) (Product.created_at p)
                   = true) ps) /\
  (exists ps,
     getHotSaleProducts (Serving table) h = (Eff.Ok ps, h) /\
     Permutation ps
       (List.filter (fun p => Product.is_hot_sale p && Product.is_active p)
          table) /\
     StronglySorted
       (fun p r => String.leb (Product.created_at r) (Product.created_at p)
                   = true) ps) /\
  (forall categorySlug,
     exists ps,
       getProductsByCategory (Serving table) categorySlug h = (Eff.Ok ps, h) /\
       Permutation ps
         (List.filter
            (fun p =>
               match Product.category p with
               | Some c => String.eqb (Category.slug c) categorySlug
               | None => false
               end && Product.is_active p) table) /\
       StronglySorted
         (fun p r => String.leb (Product.created_at r) (Product.created_at p)
                     = true) ps).
Proof.
  split; [|split; [|intros categorySlug]]; eexists;
    (split; [reflexivity|]); unfold data_or_empty, rows; simpl;
    (split; [|apply sort_newest_first]);
    rewrite <- sort_Permutation;
    (erewrite filter_ext; [reflexivity|]); intros p; simpl;
    rewrite ?eqb_true_r, ?andb_true_r; try reflexivity.
  destruct (Product.category p); reflexivity.
Qed.

(** X1. When the backend serves, [getRelatedProducts] returns the first
    [limit] of the active products of the category other than the excluded
    one, newest first: at most [limit] products, none with the excluded id,
    and all of them when they are [limit] or fewer. *)
Theorem getRelatedProducts_serving (table : list Product.t)
  (categoryId excludeProductId : string) (limit : nat) (h : hook) :
  exists ps candidates,
    getRelatedProducts (Serving table) categoryId excludeProductId limit h
    = (Eff.Ok ps, h) /\
    ps = firstn limit candidates /\
    Permutation candidates
      (List.filter
         (fun p =>
            match Product.category_id p with
            | Some c => String.eqb c categoryId
            | None => false
            end
            && negb (String.eqb (Product.id p) excludeProductId)
            && Product.is_active p) table) /\
    StronglySorted
      (fun p r => String.leb (Product.created_at r) (Product.created_at p)
                  = true) candidates /\
    List.length ps <= limit /\
    Forall (fun p => In p table /\ Product.id p <> excludeProductId /\
                     Product.category_id p = Some categoryId /\
                     Product.is_active p = true) ps.
Proof.
  exists (rows table
            (from_products_select
             |> eq col_category_id (CStr categoryId)
             |> neq col_id (CStr excludeProductId)
             |> eq col_is_active (CBool true)
             |> Store.limit limit
             |> order col_created_at false)).
  eexists. split; [reflexivity|]. unfold rows; simpl.
  split; [reflexivity|]. split; [|split; [apply sort_newest_first|split]].
  - rewrite <- sort_Permutation. erewrite filter_ext; [reflexivity|].
    intros p. simpl. rewrite eqb_true_r, andb_true_r, andb_assoc.
    destruct (Product.category_id p); reflexivity.
  - apply firstn_le_length.
  - apply Forall_forall. intros p Hp. apply firstn_In in Hp.
    apply sort_In in Hp. apply filter_In in Hp. destruct Hp as [Hin Hc].
    simpl in Hc. rewrite eqb_true_r, andb_true_r in Hc.
    apply andb_true_iff in Hc. destruct Hc as [Hc Ha].
    apply andb_true_iff in Ha. destruct Ha as [Hx Ha].
    repeat split; try assumption.
    + intros E. apply negb_true_iff in Hx. apply String.eqb_neq in Hx.
      contradiction.
    + destruct (Product.category_id p) as [c|]; [|discriminate].
      simpl in Hc. apply String.eqb_eq in Hc. now subst.
Qed.

(** The outcome of the single-row accessors when the backend serves: the
    row when it is alone, and otherwise [null] with the error of
    [.single()] on the console. *)
Lemma single_accessors_serving (table : list Product.t) (h : hook) :
  (forall slug,
     getProductBySlug (Serving table) slug h
     = match List.filter
               (fun p => String.eqb (Product.slug p) slug
                         && Product.is_active p) table with
       | [p] => (Eff.Ok (Some p), h)
       | _ =>
           (Eff.Ok None,
            mkHook (products h) (loading h) (error h)
              (console h ++
               [("Error fetching product:",
                 "PGRST116: JSON object requested, multiple (or no) rows returned")]))
       end) /\
  (forall id,
     getProductById (Serving table) id h
     = match List.filter
               (fun p => String.eqb (Product.id p) id
                         && Product.is_active p) table with
       | [p] => (Eff.Ok (Some p), h)
       | _ =>
           (Eff.Ok None,
            mkHook (products h) (loading h) (error h)
              (console h ++
               [("Error fetching product by id:",
                 "PGRST116: JSON object requested, multiple (or no) rows returned")]))
       end).
Proof.
  split; intros k.
  - unfold getProductBySlug, Eff.try_catch, Eff.bind, await_single, rows.
    simpl.
    rewrite (filter_ext _
               (fun p => String.eqb (Product.slug p) k && Product.is_active p))
      by (intros p; now rewrite eqb_true_r, andb_true_r).
    destruct (List.filter _ table) as [|p [|q l]]; reflexivity.
  - unfold getProductById, Eff.try_catch, Eff.bind, await_single, rows.
    simpl.
    rewrite (filter_ext _
               (fun p => String.eqb (Product.id p) k && Product.is_active p))
      by (intros p; now rewrite eqb_true_r, andb_true_r).
    destruct (List.filter _ table) as [|p [|q l]]; reflexivity.
Qed.

Lemma single_accessors_result (table : list Product.t) (h : hook) :
  (forall slug,
     fst (getProductBySlug (Serving table) slug h)
     = Eff.Ok (match List.filter
                       (fun p => String.eqb (Product.slug p) slug
                                 && Product.is_active p) table with
               | [p] => Some p
               | _ => None
               end)) /\
  (forall id,
     fst (getProductById (Serving table) id h)
     = Eff.Ok (match List.filter
                       (fun p => String.eqb (Product.id p) id
                                 && Product.is_active p) table with
               | [p] => Some p
               | _ => None
               end)).
Proof.
  split; intros k.
  - rewrite (proj1 (single_accessors_serving table h) k).
    destruct (List.filter _ table) as [|p [|q l]]; reflexivity.
  - rewrite (proj2 (single_accessors_serving table h) k).
    destruct (List.filter _ table) as [|p [|q l]]; reflexivity.
Qed.

(** What a product returned by [getProductBySlug] is. *)
Lemma getProductBySlug_found (table : list Product.t) (slug : string)
  (h : hook) (p : Product.t) :
  fst (getProductBySlug (Serving table) slug h) = Eff.Ok (Some p) ->
  In p table /\ Product.slug p = slug /\ Product.is_active p = true.
Proof.
  rewrite (proj1 (single_accessors_result table h) slug).
  destruct (List.filter _ table) as [|q [|r l]] eqn:E; try discriminate.
  intros [= ->].
  assert (In p (List.filter
                  (fun p => String.eqb (Product.slug p) slug
                            && Product.is_active p) table)) as Hp
      by (rewrite E; now left).
  apply filter_In in Hp. destruct Hp as [Hin Hc].
  apply andb_true_iff in Hc. destruct Hc as [Hs Ha].
  apply String.eqb_eq in Hs. tauto.
Qed.

End AccessorFacts.

Lemma filter_none {A} (f : A -> bool) (l : list A) :
  (forall x, In x l -> f x = false) -> List.filter f l = [].
Proof.
  induction l as [|x l IH]; intros H; simpl; [reflexivity|].
  rewrite (H x (or_introl eq_refl)). apply IH. intros y Hy. apply H. now right.
Qed.

(** The row that [.single()] yields among the rows selected by [f]. *)
Lemma single_row (f : Product.t -> bool) (table : list Product.t) :
  (forall p,
     match List.filter f table with [x] => Some x | _ => None end = Some p ->
     In p table /\ f p = true) /\
  ((forall p, In p table -> f p = false) ->
   match List.filter f table with [x] => Some x | _ => None end = None) /\
  (forall l1 p l2 q l3,
     table = l1 ++ p :: l2 ++ q :: l3 -> f p = true -> f q = true ->
     match List.filter f table with [x] => Some x | _ => None end = None) /\
  (forall l1 p l2,
     table = l1 ++ p :: l2 -> f p = true ->
     (forall x, In x l1 -> f x = false) ->
     (forall x, In x l2 -> f x = false) ->
     match List.filter f table with [x] => Some x | _ => None end = Some p).
Proof.
  repeat split.
  - destruct (List.filter f table) as [|x [|y l]] eqn:E; try discriminate.
    injection H as <-.
    assert (In x (List.filter f table)) as Hx by (rewrite E; now left).
    now apply filter_In in Hx.
  - destruct (List.filter f table) as [|x [|y l]] eqn:E; try discriminate.
    injection H as <-.
    assert (In x (List.filter f table)) as Hx by (rewrite E; now left).
    now apply filter_In in Hx.
  - intros H. now rewrite filter_none.
  - intros l1 p l2 q l3 -> Hp Hq.
    rewrite filter_app. simpl. rewrite Hp, filter_app. simpl. rewrite Hq.
    destruct (List.filter f l1) as [|a [|b l]]; simpl; try reflexivity;
      destruct (List.filter f l2); reflexivity.
  - intros l1 p l2 -> Hp H1 H2.
    rewrite filter_app. simpl. rewrite Hp, !filter_none by assumption.
    reflexivity.
Qed.

Section SingleFacts.
Import Store UseProducts.

(** X2. When the backend serves, [getProductBySlug] never throws; a product
    it returns is an active row of the table with that slug; it returns
    [null] when no active row has the slug and also when two rows have it;
    it returns the row when that row alone has it. *)
Theorem getProductBySlug_serving (table : list Product.t) (slug : string)
  (h : hook) :
  let f p := String.eqb (Product.slug p) slug && Product.is_active p in
  (exists r, fst (getProductBySlug (Serving table) slug h) = Eff.Ok r) /\
  (forall p,
     fst (getProductBySlug (Serving table) slug h) = Eff.Ok (Some p) ->
     In p table /\ Product.slug p = slug /\ Product.is_active p = true) /\
  ((forall p, In p table -> f p = false) ->
   fst (getProductBySlug (Serving table) slug h) = Eff.Ok None) /\
  (forall l1 p l2 q l3,
     table = l1 ++ p :: l2 ++ q :: l3 -> f p = true -> f q = true ->
     fst (getProductBySlug (Serving table) slug h) = Eff.Ok None) /\
  (forall l1 p l2,
     table = l1 ++ p :: l2 -> f p = true ->
     (forall x, In x l1 -> f x = false) ->
     (forall x, In x l2 -> f x = false) ->
     fst (getProductBySlug (Serving table) slug h) = Eff.Ok (Some p)).
Proof.
  intros f.
  pose proof (proj1 (single_accessors_result table h) slug) as E.
  fold f in E. destruct (single_row f table) as (S1 & S2 & S3 & S4).
  split; [|split; [|split; [|split]]].
  - rewrite E. eexists; reflexivity.
  - intros p Hp. now apply (getProductBySlug_found table slug h).
  - intros H. rewrite E. f_equal. now apply S2.
  - intros l1 p l2 q l3 Ht Hp Hq. rewrite E. f_equal.
    now apply (S3 l1 p l2 q l3).
  - intros l1 p l2 Ht Hp H1 H2. rewrite E. f_equal. now apply (S4 l1 p l2).
Qed.

(** X3. [getProductById] behaves in the same way, by id. *)
Theorem getProductById_serving (table : list Product.t) (id : string)
  (h : hook) :
  let f p := String.eqb (Product.id p) id && Product.is_active p in
  (exists r, fst (getProductById (Serving table) id h) = Eff.Ok r) /\
  (forall p,
     fst (getProductById (Serving table) id h) = Eff.Ok (Some p) ->
     In p table /\ Product.id p = id /\ Product.is_active p = true) /\
  ((forall p, In p table -> f p = false) ->
   fst (getProductById (Serving table) id h) = Eff.Ok None) /\
  (forall l1 p l2 q l3,
     table = l1 ++ p :: l2 ++ q :: l3 -> f p = true -> f q = true ->
     fst (getProductById (Serving table) id h) = Eff.Ok None) /\
  (forall l1 p l2,
     table = l1 ++ p :: l2 -> f p = true ->
     (forall x, In x l1 -> f x = false) ->
     (forall x, In x l2 -> f x = false) ->
     fst (getProductById (Serving table) id h) = Eff.Ok (Some p)).
Proof.
  intros f.
  pose proof (proj2 (single_accessors_result table h) id) as E.
  fold f in E. destruct (single_row f table) as (S1 & S2 & S3 & S4).
  split; [|split; [|split; [|split]]].
  - rewrite E. eexists; reflexivity.
  - intros p Hp. rewrite E in Hp. injection Hp as Hp.
    apply S1 in Hp. destruct Hp as [Hin Hf]. unfold f in Hf.
    apply andb_true_iff in Hf. destruct Hf as [Hi Ha].
    apply String.eqb_eq in Hi. tauto.
  - intros H. rewrite E. f_equal. now apply S2.
  - intros l1 p l2 q l3 Ht Hp Hq. rewrite E. f_equal.
    now apply (S3 l1 p l2 q l3).
  - intros l1 p l2 Ht Hp H1 H2. rewrite E. f_equal. now apply (S4 l1 p l2).
Qed.

End SingleFacts.

Section StateFacts.
Import Store UseProducts.

(** X5. No accessor touches the state cells of the hook ([products],
    [loading], [error]), whatever the backend does; and a list accessor
    that is served writes nothing on the console. *)
Theorem accessors_keep_state (b : backend) (h : hook) :
  let same h' :=
    products h' = products h /\ loading h' = loading h /\ error h' = error h in
  ((forall slug, same (snd (getProductBySlug b slug h))) /\
   (forall id, same (snd (getProductById b id h))) /\
   (forall c, same (snd (getProductsByCategory b c h))) /\
   same (snd (getHotSaleProducts b h)) /\
   same (snd (getAllProducts b h)) /\
   (forall c x n, same (snd (getRelatedProducts b c x n h))) /\
   (forall n, same (snd (getRecommendedProducts b n h)))) /\
  (failed b = false ->
   (forall c, snd (getProductsByCategory b c h) = h) /\
   snd (getHotSaleProducts b h) = h /\
   snd (getAllProducts b h) = h /\
   (forall c x n, snd (getRelatedProducts b c x n h) = h) /\
   (forall n, snd (getRecommendedProducts b n h) = h)).
Proof.
  intros same. unfold same. split.
  - destruct b as [table|e|e]; repeat split; try reflexivity;
      try (rewrite (proj1 (single_accessors_serving table h));
           destruct (List.filter _ table) as [|p [|q l]]; reflexivity);
      try (rewrite (proj2 (single_accessors_serving table h));
           destruct (List.filter _ table) as [|p [|q l]]; reflexivity).
  - destruct b as [table|e|e]; [|discriminate..]. intros _.
    repeat split.
Qed.

(** X6. A slug that no active row has is reported like a failure of the
    backend: [getProductBySlug] returns [null] in both cases and writes one
    entry, with the same label, on the console. *)
Theorem getProductBySlug_not_found_is_logged (table : list Product.t)
  (slug : string) (e : Js.thrown) (h : hook) :
  (forall p, In p table ->
     String.eqb (Product.slug p) slug && Product.is_active p = false) ->
  fst (getProductBySlug (Serving table) slug h) = Eff.Ok None /\
  fst (getProductBySlug (Failing e) slug h) = Eff.Ok None /\
  (exists what,
     console (snd (getProductBySlug (Serving table) slug h))
     = console h ++ [("Error fetching product:", what)]) /\
  (exists what,
     console (snd (getProductBySlug (Failing e) slug h))
     = console h ++ [("Error fetching product:", what)]).
Proof.
  intros H. rewrite (proj1 (single_accessors_serving table h)).
  rewrite filter_none by exact H. repeat split; eexists; reflexivity.
Qed.

(** X7. When the backend serves, [fetchProducts] throws nothing, ends with
    [loading] false and stores exactly the active products, newest first.
    The copy with the fallback also clears [error]; the other copy leaves
    [error] as it was. Neither writes on the console. *)
Theorem fetchProducts_serving_state (table : list Product.t)
  (now : nat -> string) (h : hook) :
  exists ps,
    Permutation ps (List.filter Product.is_active table) /\
    StronglySorted
      (fun p r => String.leb (Product.created_at r) (Product.created_at p)
                  = true) ps /\
    fetchProducts (Serving table) now h
    = (Eff.Ok tt, mkHook ps false None (console h)) /\
    UseProductsClient.fetchProducts (Serving table) h
    = (Eff.Ok tt, mkHook ps false (error h) (console h)).
Proof.
  exists (rows table all_active). unfold rows. simpl.
  split; [|split; [apply sort_newest_first | split; reflexivity]].
  rewrite <- sort_Permutation. erewrite filter_ext; [reflexivity|].
  intros p. simpl. now rewrite eqb_true_r, andb_true_r.
Qed.

(** X8. After a failed fetch, a refetch that succeeds replaces the sample
    products by the rows and clears the error in the copy with the
    fallback; in the other copy the rows arrive but the error message of
    the failed fetch stays. *)
Theorem refetch_after_failure (e : Js.thrown) (table : list Product.t)
  (now : nat -> string) (h : hook) :
  let h1 := snd (fetchProducts (Failing e) now h) in
  let h2 := snd (fetchProducts (Serving table) now h1) in
  let c1 := snd (UseProductsClient.fetchProducts (Failing e) h) in
  let c2 := snd (UseProductsClient.fetchProducts (Serving table) c1) in
  products h1 = mockProducts now /\
  products h2 = rows table all_active /\ error h2 = None /\
  products c2 = rows table all_active /\
  error c2 = error c1 /\ error c2 <> None.
Proof. repeat split. simpl. discriminate. Qed.

(** X9. What a failed fetch records: the message of the error when it is
    an [Error], the text "An error occurred" otherwise; the copy with the
    fallback also writes it on the console, once, and the other copy
    writes nothing. A request that rejects and a response that carries an
    error are treated alike. *)
Theorem fetchProducts_failure_message (e : Js.thrown) (now : nat -> string)
  (h : hook) :
  let msg := match e with
             | Js.ErrorObj m => m
             | Js.NonError _ => "An error occurred"
             end in
  (forall b, b = Failing e \/ b = Unreachable e ->
     error (snd (fetchProducts b now h)) = Some msg /\
     console (snd (fetchProducts b now h))
     = console h ++ [("Database fetch failed, using mock data:", msg)] /\
     error (snd (UseProductsClient.fetchProducts b h)) = Some msg /\
     console (snd (UseProductsClient.fetchProducts b h)) = console h).
Proof. intros msg b [->| ->]; repeat split. Qed.

End StateFacts.

(* ===================================================================== *)
(** * Further properties of the listing page *)
(* ===================================================================== *)

Lemma rows_unlimited_In (table : list Product.t) (q : Store.query)
  (p : Product.t) :
  Store.row_limit q = None ->
  (In p (Store.rows table q) <->
   In p table /\ forallb (fun k => Store.holds k p) (Store.conds q) = true).
Proof.
  intros Hl. split; [apply rows_sound|]. unfold Store.rows. rewrite Hl.
  intros H. destruct (Store.ordering q) as [[c asc]|].
  - apply sort_In. now apply filter_In.
  - now apply filter_In.
Qed.

Section PageLoadFacts.
Import Store ProductsPage ProductsPageView.

(** The accessor the effect calls, and what it calls it with. *)
Lemma page_fetch_run (b : backend) (category : option string) (s : session)
  run :
  run
  = match category with
    | Some c =>
        if Js.truthy_str (Some c) && negb (String.eqb c "all") then
          UseProducts.getProductsByCategory b (String_of (getCategorySlug c))
            (hook_of s)
        else UseProducts.getAllProducts b (hook_of s)
    | None => UseProducts.getAllProducts b (hook_of s)
    end ->
  exists data,
    fst run = Eff.Ok data /\
    fetchProducts b category s
    = (Eff.Ok tt,
       mkSession
         (mkPage (arrays (page_of s) ++ [data])
            (List.length (arrays (page_of s)))
            (List.length (arrays (page_of s)))
            (selectedFilter (page_of s)))
         false (snd run)).
Proof.
  intros ->. destruct category as [c|];
    [destruct (Js.truthy_str (Some c) && negb (String.eqb c "all")) eqn:E|];
    destruct b as [table|e|e]; eexists; (split; [reflexivity|]);
    unfold fetchProducts; try rewrite E; reflexivity.
Qed.

(** X10. The effect that loads the page never throws and always ends with
    [loading] false; it puts the products fetched in one new array that
    both [products] and [filteredProducts] then refer to, changes no array
    that exists, and leaves the selected filter alone. When the backend
    fails that array is empty. *)
Theorem page_fetch_effect (b : backend) (category : option string)
  (s : session) :
  let s' := snd (fetchProducts b category s) in
  fst (fetchProducts b category s) = Eff.Ok tt /\
  loading s' = false /\
  products (page_of s') = List.length (arrays (page_of s)) /\
  filteredProducts (page_of s') = products (page_of s') /\
  List.length (arrays (page_of s')) = S (List.length (arrays (page_of s))) /\
  (forall r, r < List.length (arrays (page_of s)) ->
     deref (page_of s') r = deref (page_of s) r) /\
  selectedFilter (page_of s') = selectedFilter (page_of s) /\
  (failed b = true -> deref (page_of s') (products (page_of s')) = []).
Proof.
  destruct (page_fetch_run b category s _ eq_refl) as (data & Hd & ->). simpl.
  repeat split.
  - rewrite length_app. simpl. lia.
  - intros r Hr. now apply deref_old.
  - intros Hb. rewrite deref_new.
    destruct category as [c|];
      [destruct (Js.truthy_str (Some c) && negb (String.eqb c "all"))|];
      destruct b as [table|e|e]; try discriminate; simpl in Hd; congruence.
Qed.

(** X11. What the page lists when the backend serves. Without a category,
    or with the empty one or "all": the active products. With another
    category that the table maps to a slug, or that passes unchanged: the
    active products whose category has that slug, and so no product
    without a category. *)
Theorem page_lists (table : list Product.t) (category : option string)
  (s : session) :
  let s' := snd (fetchProducts (Serving table) category s) in
  let listed := deref (page_of s') (products (page_of s')) in
  (category = None \/ category = Some "" \/ category = Some "all" ->
   forall p, In p listed <-> In p table /\ Product.is_active p = true) /\
  (forall c slug,
     category = Some c -> c <> "" -> c <> "all" ->
     getCategorySlug c = Js.VStr slug ->
     forall p,
       In p listed <->
       In p table /\ Product.is_active p = true /\
       exists k, Product.category p = Some k /\ Category.slug k = slug).
Proof.
  destruct (page_fetch_run (Serving table) category s _ eq_refl)
    as (data & Hd & ->).
  cbv zeta. cbn [snd page_of products]. rewrite deref_new. split.
  - intros Hc p.
    assert (data = rows table UseProducts.all_active) as ->.
    { destruct Hc as [->|[->| ->]]; injection Hd as <-; reflexivity. }
    rewrite rows_unlimited_In by reflexivity. simpl.
    rewrite andb_true_r, eqb_true_r. tauto.
  - intros c slug -> H1 H2 Hs p.
    assert (Js.truthy_str (Some c) && negb (String.eqb c "all") = true) as E.
    { simpl. destruct (String.eqb_spec c ""); [contradiction|].
      destruct (String.eqb_spec c "all"); [contradiction|]. reflexivity. }
    rewrite E, Hs in Hd.
    assert (data
            = rows table
                (from_products_select
                 |> eq col_category_slug (CStr slug)
                 |> eq col_is_active (CBool true)
                 |> order col_created_at false)) as ->
        by (injection Hd as <-; reflexivity).
    rewrite rows_unlimited_In by reflexivity. simpl.
    rewrite andb_true_r, eqb_true_r. split.
    + intros (Hin & H). apply andb_true_iff in H. destruct H as [Hk Ha].
      destruct (Product.category p) as [k|]; [|discriminate]. simpl in Hk.
      apply String.eqb_eq in Hk. split; [exact Hin|]. split; [exact Ha|].
      now exists k.
    + intros (Hin & Ha & k & Hk & Hslug). split; [exact Hin|].
      rewrite Hk, Ha. simpl. rewrite andb_true_r. now apply String.eqb_eq.
Qed.

End PageLoadFacts.

Section PageTableFacts.
Import ProductsPage ProductsPageView.

(** X12. [getSubcategoryFilters] gives, for every category, either a list
    of labels that begins with "All" and has no label twice, or (only for
    a name of a property of [Object.prototype]) the inherited value; for a
    category that is in neither table, the empty one and "all" included,
    the list is just "All". *)
Theorem getSubcategoryFilters_labels (category : string) :
  match getSubcategoryFilters category with
  | Labels l => hd_error l = Some "All" /\ NoDup l
  | Inherited v => Js.assoc category Js.Object_prototype = Some v
  end /\
  (Js.assoc category filterMap = None ->
   Js.assoc category Js.Object_prototype = None ->
   getSubcategoryFilters category = Labels ["All"]).
Proof.
  split.
  - unfold getSubcategoryFilters.
    destruct (String.eqb_spec category "") as [->|Hne]; simpl.
    + split; [reflexivity|]. repeat constructor. simpl. tauto.
    + destruct (String.eqb_spec category "") as [|_]; [contradiction|].
      repeat (match goal with
              | |- context [String.eqb category ?k] =>
                  destruct (String.eqb category k); simpl
              end;
              try (split; [reflexivity|];
                   repeat constructor; simpl; intuition discriminate));
        try reflexivity.
  - intros H1 H2. unfold getSubcategoryFilters.
    destruct (String.eqb_spec category "") as [->|Hne]; [reflexivity|].
    unfold Js.or_str. destruct (String.eqb_spec category ""); [contradiction|].
    now rewrite H1, H2.
Qed.


End PageTableFacts.


Lemma getSubcategoryFilters_labels_witness :
  ProductsPageView.getSubcategoryFilters "kids" = ProductsPageView.Labels ["All"].
Proof.
  apply (proj2 (getSubcategoryFilters_labels "kids")); reflexivity.
Defined.

(** ** Carts *)


Section PageCartFacts.
Import ProductsPage ProductsPageView.

(** X14. [handleAddToCart] of the listing page never throws and shows
    exactly one toast. It calls the cart at most once: only for a logged-in
    user and a product of the fetched list with exactly that id, with
    quantity 1 and the first variant that can be bought (or none). The
    toast announces success only when the cart accepted the call. *)
Theorem page_handleAddToCart (e : env) (fetched : list Product.t)
  (productId : string) (done : list BestSelling.action) :
  exists acts,
    handleAddToCart e fetched productId done = (Eff.Ok tt, done ++ acts) /\
    Observe.cartAdds acts
    = (if user e then
         match List.find (fun p => String.eqb (Product.id p) productId) fetched
         with
         | Some product => [(productId, Observe.variantFor product, 1)]
         | None => []
         end
       else []) /\
    Observe.toasts acts
    = [ if negb (user e) then ("Login Required", true)
        else
          match List.find (fun p => String.eqb (Product.id p) productId)
                  fetched, cartFailure e with
          | Some _, None => ("Added to Cart!", false)
          | _, _ => ("Error", true)
          end ] /\
    (forall product,
       List.find (fun p => String.eqb (Product.id p) productId) fetched
       = Some product ->
       In product fetched /\ Product.id product = productId).
Proof.
  assert (forall product,
            List.find (fun p => String.eqb (Product.id p) productId) fetched
            = Some product ->
            In product fetched /\ Product.id product = productId) as L.
  { intros product F. apply find_some in F. destruct F as [Hin Hid].
    apply String.eqb_eq in Hid. tauto. }
  enough (exists acts,
            handleAddToCart e fetched productId done
            = (Eff.Ok tt, done ++ acts) /\
            Observe.cartAdds acts
            = (if user e then
                 match List.find
                         (fun p => String.eqb (Product.id p) productId) fetched
                 with
                 | Some product => [(productId, Observe.variantFor product, 1)]
                 | None => []
                 end
               else []) /\
            Observe.toasts acts
            = [ if negb (user e) then ("Login Required", true)
                else
                  match List.find
                          (fun p => String.eqb (Product.id p) productId)
                          fetched, cartFailure e with
                  | Some _, None => ("Added to Cart!", false)
                  | _, _ => ("Error", true)
                  end ]) as (acts & HA & HB & HC).
  { exists acts. split; [exact HA|]. split; [exact HB|].
    split; [exact HC | exact L]. }
  clear L. unfold handleAddToCart, Observe.variantFor.
  destruct (user e); simpl.
  - destruct (List.find _ fetched) as [product|].
    + destruct (cartFailure e) as [err|];
        unfold Eff.try_catch, Eff.bind, BestSelling.act, Eff.modify,
          Eff.throw, Eff.ret; simpl; rewrite <- !app_assoc; simpl;
        eexists; (split; [reflexivity|]); split; reflexivity.
    + unfold Eff.try_catch, BestSelling.act, Eff.modify; simpl.
      eexists. split; [reflexivity|]. split; reflexivity.
  - unfold BestSelling.act, Eff.modify. eexists. split; [reflexivity|].
    split; reflexivity.
Qed.

Variable toLowerCase : string -> string.

(** X15. When [handleFilterClick] throws (a product without description
    whose name does not contain the filter), the tab clicked is already the
    selected one, but the list shown is the one from before: no array was
    made and [filteredProducts] did not move. *)
Theorem handleFilterClick_throw_state (f : string) (w : page)
  (p : Product.t) :
  f <> "All" -> f <> "all" ->
  In p (deref w (products w)) ->
  Product.description p = None ->
  Js.includes (toLowerCase (Product.name p)) (toLowerCase f) = false ->
  let w' := snd (handleFilterClick toLowerCase f w) in
  (exists e, fst (handleFilterClick toLowerCase f w) = Eff.Raise e) /\
  selectedFilter w' = f /\
  tabSelected toLowerCase (selectedFilter w') f = true /\
  filteredProducts w' = filteredProducts w /\
  arrays w' = arrays w /\ products w' = products w.
Proof.
  intros H1 H2 Hin Hd Hn. cbv zeta. rewrite click_filtering by assumption.
  destruct (filterM_raises (clickCallback toLowerCase f)
              (deref w (products w)) p
              (Js.ErrorObj "Cannot read properties of null (reading 'toLowerCase')")
              Hin) as [e He].
  { unfold clickCallback. now rewrite Hn, Hd. }
  rewrite He. simpl. repeat split; [now exists e|].
  unfold tabSelected. now rewrite String.eqb_refl.
Qed.

End PageCartFacts.

Lemma handleFilterClick_throw_state_witness :
  let tee := Samples.product "p1" "Round Neck Tee" None false 4 in
  let w := ProductsPage.loaded [tee] in
  ProductsPage.selectedFilter
    (snd (ProductsPage.handleFilterClick Js.ascii_toLowerCase "Polo" w))
  = "Polo" /\
  ProductsPage.filteredProducts
    (snd (ProductsPage.handleFilterClick Js.ascii_toLowerCase "Polo" w))
  = ProductsPage.filteredProducts w.
Proof.
  cbv zeta.
  pose proof (handleFilterClick_throw_state Js.ascii_toLowerCase "Polo"
                (ProductsPage.loaded
                   [Samples.product "p1" "Round Neck Tee" None false 4])
                (Samples.product "p1" "Round Neck Tee" None false 4)) as H.
  destruct H as (_ & Hs & _ & Hf & _).
  - discriminate.
  - discriminate.
  - now left.
  - reflexivity.
  - reflexivity.
  - split; [exact Hs | exact Hf].
Defined.

(* ===================================================================== *)
(** * Further properties of the detail page *)
(* ===================================================================== *)

Section DetailFacts.
Import ProductDetailView.

Lemma handleQuantityChange_range (change : Z) (st : state) :
  (1 <= quantity (handleQuantityChange change st) <= 10)%Z.
Proof. simpl. lia. Qed.

Lemma changes_keep_product (changes : list Z) (st : state) :
  product (fold_left (fun s c => handleQuantityChange c s) changes st)
  = product st.
Proof.
  revert st; induction changes as [|c l IH]; intros st; simpl;
    [reflexivity | now rewrite IH].
Qed.

Lemma changes_keep_range (changes : list Z) (st : state) :
  (1 <= quantity st <= 10)%Z ->
  (1 <= quantity (fold_left (fun s c => handleQuantityChange c s) changes st)
   <= 10)%Z.
Proof.
  revert st; induction changes as [|c l IH]; intros st H; simpl;
    [exact H | apply IH, handleQuantityChange_range].
Qed.

(** X16. The quantity stays between 1 and 10 whatever changes are applied,
    in any number and of any size; a click on a button that is not
    disabled moves it by exactly one, and a change never touches the
    product or the selected size and colour. *)
Theorem quantity_in_range (st : state) :
  (forall change,
     (1 <= quantity (handleQuantityChange change st) <= 10)%Z /\
     product (handleQuantityChange change st) = product st /\
     selectedSize (handleQuantityChange change st) = selectedSize st /\
     selectedColor (handleQuantityChange change st) = selectedColor st) /\
  (forall changes,
     (1 <= quantity st <= 10)%Z ->
     (1 <= quantity (fold_left (fun s c => handleQuantityChange c s) changes st)
      <= 10)%Z) /\
  ((1 <= quantity st <= 10)%Z ->
   (plusDisabled st = false ->
    quantity (handleQuantityChange 1 st) = (quantity st + 1)%Z) /\
   (minusDisabled st = false ->
    quantity (handleQuantityChange (-1) st) = (quantity st - 1)%Z) /\
   (plusDisabled st = true ->
    quantity (handleQuantityChange 1 st) = quantity st) /\
   (minusDisabled st = true ->
    quantity (handleQuantityChange (-1) st) = quantity st)).
Proof.
  split; [|split].
  - intros change. repeat split; simpl; lia.
  - intros changes. apply changes_keep_range.
  - intros H. unfold plusDisabled, minusDisabled. simpl.
    repeat split; intros E;
      first [apply Z.leb_gt in E | apply Z.leb_le in E]; lia.
Qed.

(** X17. [handleAddToCart] of the detail page: a visitor who is not logged
    in gets one toast and no call of the cart; without a product nothing
    happens; otherwise the cart is called once for each unit, every call
    with the id of the product, and one toast follows. After any sequence
    of quantity changes from a state within the range, that makes between
    1 and 10 calls. *)
Theorem detail_handleAddToCart (st : state) :
  handleAddToCart false st
  = [Toast "Please log in" "You need to be logged in to add items to cart"
       true] /\
  (product st = None -> handleAddToCart true st = []) /\
  (forall p changes,
     product st = Some p -> (1 <= quantity st <= 10)%Z ->
     exists n,
       1 <= n <= 10 /\
       Z.of_nat n
       = quantity (fold_left (fun s c => handleQuantityChange c s) changes st)
       /\
       handleAddToCart true
         (fold_left (fun s c => handleQuantityChange c s) changes st)
       = repeat (CartAdd (Product.id p)) n
         ++ [Toast "Added to cart"
               (show_Z (Z.of_nat n) ++ "x " ++ Product.name p
                ++ " added to your cart")%string false]).
Proof.
  split; [reflexivity|]. split.
  - intros H. unfold handleAddToCart. simpl. now rewrite H.
  - intros p changes Hp Hq.
    pose proof (changes_keep_range changes st Hq) as Hr.
    pose proof (changes_keep_product changes st) as Hk.
    set (st' := fold_left _ changes st) in *.
    exists (Z.to_nat (quantity st')). split; [lia|]. split; [lia|].
    unfold handleAddToCart. simpl. rewrite Hk, Hp.
    rewrite Z2Nat.id by lia. reflexivity.
Qed.

End DetailFacts.

Lemma quantity_in_range_witness :
  ProductDetailView.quantity
    (ProductDetailView.handleQuantityChange 1 ProductDetailView.initial)
  = 2%Z.
Proof.
  apply (quantity_in_range ProductDetailView.initial).
  - simpl. lia.
  - reflexivity.
Defined.

Lemma detail_handleAddToCart_witness :
  exists n,
    1 <= n <= 10 /\
    Z.of_nat n
    = ProductDetailView.quantity
        (fold_left (fun s c => ProductDetailView.handleQuantityChange c s)
           [1%Z; 1%Z; (-1)%Z]
           (ProductDetailView.mkState
              (Some (Samples.product "p1" "Polo Shirt" None true 5)) "" "" 1)) /\
    ProductDetailView.handleAddToCart true
      (fold_left (fun s c => ProductDetailView.handleQuantityChange c s)
         [1%Z; 1%Z; (-1)%Z]
         (ProductDetailView.mkState
            (Some (Samples.product "p1" "Polo Shirt" None true 5)) "" "" 1))
    = repeat (ProductDetailView.CartAdd "p1") n
      ++ [ProductDetailView.Toast "Added to cart"
            (ProductDetailView.show_Z (Z.of_nat n) ++ "x " ++ "Polo Shirt"
             ++ " added to your cart")%string false].
Proof.
  apply (proj2 (proj2 (detail_handleAddToCart
                         (ProductDetailView.mkState
                            (Some (Samples.product "p1" "Polo Shirt" None true 5))
                            "" "" 1)))
           (Samples.product "p1" "Polo Shirt" None true 5)
           [1%Z; 1%Z; (-1)%Z]).
  - reflexivity.
  - simpl. lia.
Defined.

(** ** Stars *)

Lemma star_filled (q : Q) (index : Z) :
  negb (Qle_bool q (inject_Z index)) = (index <? Qceiling q)%Z.
Proof.
  destruct (Z.ltb_spec index (Qceiling q)) as [H|H].
  - apply negb_true_iff. destruct (Qle_bool q (inject_Z index)) eqn:E;
      [|reflexivity].
    apply Qle_bool_iff in E. apply Qceiling_resp_le in E.
    rewrite Qceiling_Z in E. lia.
  - apply negb_false_iff. apply Qle_bool_iff.
    eapply Qle_trans; [apply Qle_ceiling|]. now rewrite <- Zle_Qle.
Qed.

(** X18. [renderStars] draws five stars, the filled ones first; their
    number is the rating rounded up, kept between 0 and 5. So a rating of
    4.5 fills all five, and a product whose rating is 0, for which 4.5 is
    shown instead, has five filled stars. *)
Theorem renderStars_filled (rating : Q) :
  ProductDetailView.renderStars rating
  = repeat true (Z.to_nat (Z.max 0 (Z.min 5 (Qceiling rating))))
    ++ repeat false (5 - Z.to_nat (Z.max 0 (Z.min 5 (Qceiling rating)))) /\
  List.length (ProductDetailView.renderStars rating) = 5 /\
  (forall p, Qeq_bool (Product.rating p) 0 = true ->
     ProductDetailView.renderStars (ProductDetailView.shownRating p)
     = [true; true; true; true; true]).
Proof.
  split; [|split; [reflexivity|]].
  - unfold ProductDetailView.renderStars. simpl. rewrite !star_filled.
    set (c := Qceiling rating).
    assert ((c <= 0 \/ c = 1 \/ c = 2 \/ c = 3 \/ c = 4 \/ 5 <= c)%Z) as H
        by lia.
    destruct H as [H|[H|[H|[H|[H|H]]]]];
      try (rewrite H; reflexivity).
    + replace (Z.max 0 (Z.min 5 c)) with 0%Z by lia.
      repeat match goal with
             | |- context [(?i <? c)%Z] =>
                 rewrite (proj2 (Z.ltb_ge i c)) by lia
             end. reflexivity.
    + replace (Z.max 0 (Z.min 5 c)) with 5%Z by lia.
      repeat match goal with
             | |- context [(?i <? c)%Z] =>
                 rewrite (proj2 (Z.ltb_lt i c)) by lia
             end. reflexivity.
  - intros p Hp. unfold ProductDetailView.shownRating. rewrite Hp.
    reflexivity.
Qed.

Lemma renderStars_filled_witness :
  ProductDetailView.renderStars
    (ProductDetailView.shownRating
       (Samples.product "p1" "Polo Shirt" None true 0))
  = [true; true; true; true; true].
Proof.
  apply (proj2 (proj2 (renderStars_filled 0))
           (Samples.product "p1" "Polo Shirt" None true 0)).
  reflexivity.
Defined.

(** ** The product selected *)

Section SelectionFacts.
Import ProductDetailView.


End SelectionFacts.


(* ===================================================================== *)
(** * Further properties of the best-selling section *)
(* ===================================================================== *)

Lemma find_present {A} (f : A -> bool) (l : list A) (x : A) :
  In x l -> f x = true -> exists y, List.find f l = Some y.
Proof.
  induction l as [|z l IH]; intros Hin Hx; simpl; [contradiction|].
  destruct (f z) eqn:E; [now exists z|].
  destruct Hin as [->|Hin]; [congruence | now apply IH].
Qed.

Section CardFacts.
Import BestSelling.


(** X21. [handleAddToCart] of the section never throws. For a card id that
    finds no product it does nothing. With the [onAddToCart] prop, the
    parent gets the product found, once, and nothing else happens, logged
    in or not. Without the prop a visitor who is not logged in gets the
    login toast and no call of the cart; a logged-in one gets one call of
    the cart, for the product found, with quantity 1 and the first variant
    that can be bought, and one toast, which announces success only when
    the cart accepted the call. *)
Theorem section_handleAddToCart (e : env) (productId : Js.number)
  (done : list action) :
  exists acts,
    handleAddToCart e productId done = (Eff.Ok tt, done ++ acts) /\
    match lookup (bestSellingProducts e) productId with
    | None => acts = []
    | Some product =>
        if onAddToCart e then
          exists size image,
            acts = [OnAddToCart (Product.id product) (Product.name product)
                      (Product.price product) size image] /\
            size <> "" /\ image <> ""
        else
          Observe.cartAdds acts
          = (if user e
             then [(Product.id product, Observe.variantFor product, 1)]
             else []) /\
          Observe.toasts acts
          = [ if negb (user e) then ("Login Required", true)
              else match cartFailure e with
                   | None => ("Added to Cart!", false)
                   | Some _ => ("Error", true)
                   end ]
    end.
Proof.
  unfold handleAddToCart, Observe.variantFor.
  destruct (lookup (bestSellingProducts e) productId) as [product|].
  - destruct (onAddToCart e).
    + unfold act, Eff.modify. eexists. split; [reflexivity|].
      eexists. eexists. split; [reflexivity|].
      split; apply or_str_not_empty; discriminate.
    + destruct (user e); simpl.
      * destruct (cartFailure e) as [err|];
          unfold Eff.try_catch, Eff.bind, act, Eff.modify, Eff.throw, Eff.ret;
          simpl; rewrite <- !app_assoc; simpl;
          eexists; (split; [reflexivity|]); split; reflexivity.
      * unfold act, Eff.modify. eexists. split; [reflexivity|].
        split; reflexivity.
  - exists []. now rewrite app_nil_r.
Qed.

(** X22. A click on the card of a product of the list whose id parses to a
    number always does exactly one thing: the [onQuickView] prop is called
    when there is one, and the page navigates otherwise, in both cases with
    the id of a product of the list whose id parses to the same number. *)
Theorem section_handleQuickView (e : env) (p : Product.t) (n : Z)
  (done : list action) :
  In p (bestSellingProducts e) ->
  Js.parseInt (Product.id p) = Js.Num n ->
  exists r,
    In r (bestSellingProducts e) /\
    Js.parseInt (Product.id r) = Js.Num n /\
    handleQuickView e (id (toCard p)) done
    = (Eff.Ok tt,
       done ++ [ if onQuickView e then OnQuickView (Product.id r)
                 else Navigate ("/all-products?product=" ++ Product.id r)%string ]).
Proof.
  intros Hin Hn. unfold handleQuickView. simpl. rewrite Hn.
  destruct (find_present
              (fun q => Js.strict_eq (Js.parseInt (Product.id q)) (Js.Num n))
              (bestSellingProducts e) p Hin) as [r Hr].
  { now apply strict_eq_Num. }
  unfold lookup. rewrite Hr. apply find_some in Hr. destruct Hr as [Hrin Hrn].
  apply strict_eq_Num in Hrn. exists r. split; [exact Hrin|].
  split; [exact Hrn|]. destruct (onQuickView e); reflexivity.
Qed.

End CardFacts.

Lemma section_handleQuickView_witness :
  exists r,
    In r [Samples.product "7" "Polo Shirt" None true 5] /\
    Js.parseInt (Product.id r) = Js.Num 7 /\
    BestSelling.handleQuickView
      (BestSelling.mkEnv [Samples.product "7" "Polo Shirt" None true 5]
         false false true None)
      (BestSelling.id
         (BestSelling.toCard (Samples.product "7" "Polo Shirt" None true 5)))
      []
    = (Eff.Ok tt,
       [] ++ [ if false then BestSelling.OnQuickView (Product.id r)
               else BestSelling.Navigate
                      ("/all-products?product=" ++ Product.id r)%string ]).
Proof.
  apply (section_handleQuickView
           (BestSelling.mkEnv [Samples.product "7" "Polo Shirt" None true 5]
              false false true None)
           (Samples.product "7" "Polo Shirt" None true 5) 7 []).
  - now left.
  - reflexivity.
Defined.

Section SectionViewFacts.
Import Store BestSellingView.

Lemma fetchBestSelling_run (b : backend) (s : section) (ps : list Product.t)
  (h' : UseProducts.hook) :
  UseProducts.getHotSaleProducts b (hook_of s) = (Eff.Ok ps, h') ->
  fetchBestSelling b s = (Eff.Ok tt, mkSection ps false h').
Proof.
  intros H. unfold fetchBestSelling, Eff.try_finally, Eff.try_catch, Eff.bind,
    call. now rewrite H.
Qed.

(** X23. Loading the section never throws and always ends the spinner.
    When the backend fails, and when it serves a table without any active
    hot-sale product, the section says that there are no products;
    otherwise it draws one card for each active hot-sale product of the
    table, newest first. *)
Theorem section_after_loading (b : backend) (s : section) :
  let s' := snd (fetchBestSelling b s) in
  fst (fetchBestSelling b s) = Eff.Ok tt /\
  loading s' = false /\ render s' <> Spinner /\
  (failed b = true -> render s' = NoProducts) /\
  (forall table, b = Serving table ->
     (render s' = NoProducts <->
      forall p, In p table ->
        Product.is_hot_sale p && Product.is_active p = false) /\
     (forall cards, render s' = Row cards ->
        exists ps,
          cards = map BestSelling.toCard ps /\
          Permutation ps
            (List.filter
               (fun p => Product.is_hot_sale p && Product.is_active p) table) /\
          StronglySorted
            (fun p r => String.leb (Product.created_at r)
                          (Product.created_at p) = true) ps)).
Proof.
  cbv zeta. destruct b as [table|e|e].
  - destruct (hot_sale_rows table (hook_of s)) as (ps & Hps & Hperm & Hsort).
    rewrite (fetchBestSelling_run _ s ps _ Hps). unfold render. simpl.
    split; [reflexivity|]. split; [reflexivity|]. split.
    { unfold BestSelling.products. destruct ps; discriminate. }
    split; [discriminate|]. intros table' [= <-]. split.
    + unfold BestSelling.products. split.
      * intros H. destruct ps as [|q ps]; [|discriminate].
        apply Permutation_nil in Hperm. intros p Hp.
        destruct (Product.is_hot_sale p && Product.is_active p) eqn:E;
          [|reflexivity].
        assert (In p (List.filter
                        (fun p => Product.is_hot_sale p && Product.is_active p)
                        table)) as Hin by (apply filter_In; tauto).
        rewrite Hperm in Hin. contradiction.
      * intros H. rewrite (filter_none _ _ H) in Hperm.
        apply Permutation_sym, Permutation_nil in Hperm. now subst.
    + intros cards Hc. exists ps. split; [|split; assumption].
      unfold BestSelling.products in Hc. destruct ps; [discriminate|].
      now injection Hc as <-.
  - rewrite (fetchBestSelling_run (Failing e) s [] _ eq_refl).
    repeat split; discriminate.
  - rewrite (fetchBestSelling_run (Unreachable e) s [] _ eq_refl).
    repeat split; discriminate.
Qed.

End SectionViewFacts.

Lemma section_after_loading_witness :
  BestSellingView.render
    (snd (BestSellingView.fetchBestSelling (Store.Failing Samples.timeout)
            BestSellingView.initial))
  = BestSellingView.NoProducts.
Proof.
  apply (section_after_loading (Store.Failing Samples.timeout)
           BestSellingView.initial).
  reflexivity.
Defined.

(* ===================================================================== *)
(** * Facets and filters, as the code has them *)
(* ===================================================================== *)

(** X24. The size facet of the detail page is the list of the non-empty
    size labels of the variants, each once, in the order in which they are
    first seen. *)
Theorem size_facet_first_seen (p : Product.t) :
  ProductDetailPage.sizeOptions p = Spec.first_seen (Spec.size_labels p) /\
  NoDup (ProductDetailPage.sizeOptions p) /\
  (forall s, In s (ProductDetailPage.sizeOptions p) <->
     s <> "" /\ exists v, In v (Product.variants p) /\ Variant.size v = Some s).
Proof. exact (sizeOptions_facet p). Qed.

(** X25. The colour facet of the detail page has one entry for each variant
    with a non-empty colour name, in the order of the variants and with
    the code of that variant; no entry has a null or empty name, and two
    variants of one colour give two entries. *)
Theorem color_facet_per_variant (next : nat) (p : Product.t) :
  ProductDetailPage.colorOptions next p
  = List.filter (fun c => Js.truthy_str (ProductDetailPage.name c))
      (map (fun v => ProductDetailPage.mkColor (Variant.color_name v)
                       (Variant.color_code v))
         (Product.variants p)) /\
  List.length (ProductDetailPage.colorOptions next p)
  = List.length
      (List.filter (fun v => Js.truthy_str (Variant.color_name v))
         (Product.variants p)) /\
  Forall (fun c => exists n, ProductDetailPage.name c = Some n /\ n <> "")
    (ProductDetailPage.colorOptions next p).
Proof.
  split; [apply colorOptions_eq|]. split.
  - rewrite colorOptions_eq.
    induction (Product.variants p) as [|v l IH]; simpl; [reflexivity|].
    destruct (Js.truthy_str (Variant.color_name v)); simpl; now rewrite IH.
  - apply Forall_forall. intros c Hc. now apply (colorOptions_named next p).
Qed.

Section FilterAgreement.
Variable toLowerCase : string -> string.

(** X26. For a token that is neither empty nor "all", the subcategory
    effect never throws and shows, in a new array, exactly the products
    whose name or description contains the token up to case, in the order
    of the fetched list; a product without description can match by its
    name only. *)
Theorem effect_shows_matches (s : string) (w : ProductsPage.page) :
  s <> "" -> s <> "all" ->
  let w' := snd (ProductsPage.subcategoryEffect toLowerCase (Some s) w) in
  fst (ProductsPage.subcategoryEffect toLowerCase (Some s) w) = Eff.Ok tt /\
  ProductsPage.deref w' (ProductsPage.filteredProducts w')
  = List.filter (ProductsPage.effectTest toLowerCase s)
      (ProductsPage.deref w (ProductsPage.products w)) /\
  (forall p, ProductsPage.effectTest toLowerCase s p = true <->
             Spec.matches toLowerCase s p) /\
  ProductsPage.selectedFilter w' = s.
Proof.
  intros H1 H2. cbv zeta.
  destruct (subcategoryEffect_filters toLowerCase s w H1 H2) as (Hr & Hf & _).
  split; [exact Hr|]. split; [exact Hf|].
  split; [intros p; apply effectTest_matches|].
  now rewrite effect_filtering.
Qed.

(** X27. When every fetched product has a description, a click on a filter
    tab other than "All" shows what the subcategory effect shows for the
    same word. *)
Theorem click_agrees_with_effect (f : string) (ps : list Product.t) :
  f <> "" -> f <> "All" -> f <> "all" ->
  (forall p, In p ps -> Product.description p <> None) ->
  let w := snd (ProductsPage.handleFilterClick toLowerCase f
                  (ProductsPage.loaded ps)) in
  fst (ProductsPage.handleFilterClick toLowerCase f (ProductsPage.loaded ps))
  = Eff.Ok tt /\
  ProductsPage.deref w (ProductsPage.filteredProducts w)
  = ProductsPage.shown toLowerCase (Some f) ps.
Proof.
  intros H0 H1 H2 Hd. cbv zeta.
  destruct (handleFilterClick_filters toLowerCase f (ProductsPage.loaded ps)
              H1 H2 Hd) as [Hr Hf].
  split; [exact Hr|]. rewrite Hf, shown_eq.
  destruct (String.eqb_spec f ""); [contradiction|].
  destruct (String.eqb_spec f "all"); [contradiction|]. reflexivity.
Qed.

End FilterAgreement.

(** X28. A category that is neither a key of the table nor the name of a
    property of [Object.prototype] is its own slug, and a key has the slug
    of the table. *)
Theorem getCategorySlug_lookup (category : string) :
  (forall v, Js.assoc category ProductsPage.categoryMap = Some v ->
     ProductsPage.getCategorySlug category = v /\
     exists slug, v = Js.VStr slug /\ slug <> "") /\
  (Js.assoc category ProductsPage.categoryMap = None ->
   Js.assoc category Js.Object_prototype = None ->
   ProductsPage.getCategorySlug category = Js.VStr category).
Proof.
  split.
  - intros v H. split; [now apply getCategorySlug_table|].
    simpl in H.
    repeat match type of H with
           | (if ?c then _ else _) = _ => destruct c
           end; try discriminate; injection H as <-;
      eexists; (split; [reflexivity | discriminate]).
  - apply getCategorySlug_fallback.
Qed.


(* ===================================================================== *)
(** * The properties at concrete inputs *)
(* ===================================================================== *)

Lemma getProductBySlug_serving_witness :
  fst (UseProducts.getProductBySlug
         (Store.Serving [ Samples.product "polo" "Polo Shirt" None true 5;
                          Samples.product "tee" "Round Neck Tee" None false 4 ])
         "tee" UseProducts.initial)
  = Eff.Ok (Some (Samples.product "tee" "Round Neck Tee" None false 4)).
Proof.
  apply (getProductBySlug_serving
           [ Samples.product "polo" "Polo Shirt" None true 5;
             Samples.product "tee" "Round Neck Tee" None false 4 ]
           "tee" UseProducts.initial)
    with (l1 := [Samples.product "polo" "Polo Shirt" None true 5])
         (l2 := []).
  - reflexivity.
  - reflexivity.
  - intros x [<-|[]]. reflexivity.
  - intros x [].
Defined.

Lemma getProductById_serving_witness :
  fst (UseProducts.getProductById
         (Store.Serving [ Samples.product "polo" "Polo Shirt" None true 5;
                          Samples.product "polo" "Polo Shirt" None true 5 ])
         "polo" UseProducts.initial)
  = Eff.Ok None.
Proof.
  apply (getProductById_serving
           [ Samples.product "polo" "Polo Shirt" None true 5;
             Samples.product "polo" "Polo Shirt" None true 5 ]
           "polo" UseProducts.initial)
    with (l1 := []) (p := Samples.product "polo" "Polo Shirt" None true 5)
         (l2 := []) (q := Samples.product "polo" "Polo Shirt" None true 5)
         (l3 := []); reflexivity.
Defined.

Lemma accessors_keep_state_witness :
  snd (UseProducts.getAllProducts (Store.Serving []) UseProducts.initial)
  = UseProducts.initial.
Proof.
  apply (accessors_keep_state (Store.Serving []) UseProducts.initial).
  reflexivity.
Defined.

Lemma getProductBySlug_not_found_is_logged_witness :
  fst (UseProducts.getProductBySlug (Store.Serving []) "polo"
         UseProducts.initial) = Eff.Ok None.
Proof.
  apply (getProductBySlug_not_found_is_logged [] "polo" Samples.timeout
           UseProducts.initial).
  intros p [].
Defined.

Lemma fetchProducts_failure_message_witness :
  UseProducts.error
    (snd (UseProducts.fetchProducts (Store.Failing Samples.timeout)
            Samples.noon UseProducts.initial))
  = Some "Failed to fetch".
Proof.
  apply (fetchProducts_failure_message Samples.timeout Samples.noon
           UseProducts.initial (Store.Failing Samples.timeout)).
  now left.
Defined.

Lemma page_fetch_effect_witness :
  let s :=
    ProductsPageView.mkSession (ProductsPage.loaded []) true
      UseProducts.initial in
  let s' :=
    snd (ProductsPageView.fetchProducts (Store.Failing Samples.timeout)
           (Some "men") s) in
  ProductsPage.deref (ProductsPageView.page_of s')
    (ProductsPage.products (ProductsPageView.page_of s')) = [].
Proof.
  cbv zeta.
  apply (page_fetch_effect (Store.Failing Samples.timeout) (Some "men")
           (ProductsPageView.mkSession (ProductsPage.loaded []) true
              UseProducts.initial)).
  reflexivity.
Defined.

(** A page for "men" lists the product of the category "mens-t-shirts". *)
Lemma page_lists_witness :
  let tee :=
    Samples.with_category (Samples.product "p1" "Round Neck Tee" None false 4)
      "Men" "mens-t-shirts" in
  let leggings :=
    Samples.with_category (Samples.product "p2" "Leggings" None false 4)
      "Women" "womens-leggings" in
  let s' :=
    snd (ProductsPageView.fetchProducts (Store.Serving [tee; leggings])
           (Some "men")
           (ProductsPageView.mkSession (ProductsPage.loaded []) true
              UseProducts.initial)) in
  In tee
    (ProductsPage.deref (ProductsPageView.page_of s')
       (ProductsPage.products (ProductsPageView.page_of s'))).
Proof.
  cbv zeta.
  apply (proj2 (page_lists
                  [ Samples.with_category
                      (Samples.product "p1" "Round Neck Tee" None false 4)
                      "Men" "mens-t-shirts";
                    Samples.with_category
                      (Samples.product "p2" "Leggings" None false 4)
                      "Women" "womens-leggings" ]
                  (Some "men")
                  (ProductsPageView.mkSession (ProductsPage.loaded []) true
                     UseProducts.initial))
           "men" "mens-t-shirts" eq_refl).
  - discriminate.
  - discriminate.
  - reflexivity.
  - split; [now left|]. split; [reflexivity|].
    exists (Category.mk "Men" "mens-t-shirts"). split; reflexivity.
Defined.

Example page_lists_excludes :
  let tee :=
    Samples.with_category (Samples.product "p1" "Round Neck Tee" None false 4)
      "Men" "mens-t-shirts" in
  let leggings :=
    Samples.with_category (Samples.product "p2" "Leggings" None false 4)
      "Women" "womens-leggings" in
  let s' :=
    snd (ProductsPageView.fetchProducts (Store.Serving [tee; leggings])
           (Some "men")
           (ProductsPageView.mkSession (ProductsPage.loaded []) true
              UseProducts.initial)) in
  ProductsPage.deref (ProductsPageView.page_of s')
    (ProductsPage.products (ProductsPageView.page_of s')) = [tee].
Proof. reflexivity. Qed.

Lemma page_handleAddToCart_witness :
  exists acts,
    ProductsPageView.handleAddToCart (ProductsPageView.mkEnv true None)
      [Samples.product "7x" "Track Pants" None true 4] "7x" []
    = (Eff.Ok tt, [] ++ acts) /\
    Observe.cartAdds acts = [("7x", None, 1)].
Proof.
  destruct (page_handleAddToCart (ProductsPageView.mkEnv true None)
              [Samples.product "7x" "Track Pants" None true 4] "7x" [])
    as (acts & HA & HB & _ & HD).
  destruct (HD (Samples.product "7x" "Track Pants" None true 4) eq_refl)
    as [_ _].
  exists acts. split; [exact HA | exact HB].
Defined.

Lemma effect_shows_matches_witness :
  fst (ProductsPage.subcategoryEffect Js.ascii_toLowerCase (Some "Polo")
         (ProductsPage.loaded [Samples.product "p1" "Polo Shirt" None true 5]))
  = Eff.Ok tt.
Proof.
  apply (effect_shows_matches Js.ascii_toLowerCase "Polo"
           (ProductsPage.loaded
              [Samples.product "p1" "Polo Shirt" None true 5]));
    discriminate.
Defined.

Lemma click_agrees_with_effect_witness :
  fst (ProductsPage.handleFilterClick Js.ascii_toLowerCase "Polo"
         (ProductsPage.loaded
            [Samples.product "p2" "Classic Tee" (Some "A POLO collar") false 4]))
  = Eff.Ok tt.
Proof.
  apply (click_agrees_with_effect Js.ascii_toLowerCase "Polo"
           [Samples.product "p2" "Classic Tee" (Some "A POLO collar") false 4]);
    try discriminate.
  intros p [<-|[]]. discriminate.
Defined.

Lemma getCategorySlug_lookup_witness :
  ProductsPage.getCategorySlug "kids" = Js.VStr "kids".
Proof. apply (getCategorySlug_lookup "kids"); reflexivity. Defined.

